(** * AIGateway MCP server: model of [mcp-server/src/mcp_server.py]

    The program is a thin adapter: a client class that issues one HTTP
    request per method, and three tool handlers that shape their inputs,
    call the client and turn results and exceptions into strings.

    The embedding follows the source:
    - Python values that flow through the program (JSON documents, the
      payload dictionaries, the handler results) are a datatype [value];
      dictionaries keep insertion order, as Python's do;
    - the side effects of the program, HTTP requests and log records, are
      threaded through a state and exception monad [M];
    - the remote gateway and the httpx transport are an oracle from the
      requests issued so far and the current request to an outcome. *)

From Stdlib Require Import ZArith List String Ascii Bool.
From Stdlib Require Import DecimalString.
Import ListNotations.
Open Scope string_scope.
Open Scope Z_scope.

Set Warnings "-register-all".

(** ** Python values *)

Module Py.

(** The values the program handles.  A float is carried as its literal:
    the program does no arithmetic on the numbers of a JSON document.
    Strings are sequences of characters, one [ascii] per character. *)
Inductive value : Type :=
| VNone
| VBool (b : bool)
| VInt (z : Z)
| VFloat (literal : string)
| VStr (s : string)
| VList (items : list value)
| VDict (entries : list (string * value)).

(** A dictionary with string keys, in insertion order, keys unique. *)
Definition dict := list (string * value).

(** [d.get(key)], [None] of the option type when the key is absent. *)
Fixpoint dict_lookup (key : string) (d : dict) : option value :=
  match d with
  | [] => None
  | (k, v) :: rest => if String.eqb k key then Some v else dict_lookup key rest
  end.

(** [d.get(key, default)]. *)
Definition dict_get (key : string) (default : value) (d : dict) : value :=
  match dict_lookup key d with
  | Some v => v
  | None => default
  end.

(** [d[key] = v]: replaces the value in place when the key exists,
    appends the entry otherwise. *)
Fixpoint dict_set (key : string) (v : value) (d : dict) : dict :=
  match d with
  | [] => [(key, v)]
  | (k, w) :: rest =>
      if String.eqb k key then (k, v) :: rest
      else (k, w) :: dict_set key v rest
  end.

(** [key in d]. *)
Definition dict_mem (key : string) (d : dict) : bool :=
  match dict_lookup key d with
  | Some _ => true
  | None => false
  end.

Definition dict_keys (d : dict) : list string := map fst d.

(** Truth value of a string: [if s:] holds for the non-empty ones. *)
Definition str_truthy (s : string) : bool :=
  match s with
  | EmptyString => false
  | String _ _ => true
  end.

(** Truth value of an optional string, [None] being false. *)
Definition opt_str_truthy (o : option string) : bool :=
  match o with
  | Some s => str_truthy s
  | None => false
  end.

(** [type(v).__name__], used in the messages of the interpreter. *)
Definition type_name (v : value) : string :=
  match v with
  | VNone => "NoneType"
  | VBool _ => "bool"
  | VInt _ => "int"
  | VFloat _ => "float"
  | VStr _ => "str"
  | VList _ => "list"
  | VDict _ => "dict"
  end.

(** [len(v)]: defined on strings, lists and dictionaries only. *)
Definition len (v : value) : option Z :=
  match v with
  | VStr s => Some (Z.of_nat (String.length s))
  | VList l => Some (Z.of_nat (List.length l))
  | VDict d => Some (Z.of_nat (List.length d))
  | _ => None
  end.

(** [s[:n]]. *)
Definition str_prefix (n : nat) (s : string) : string := substring 0 n s.

(** *** [repr] and [str] *)

Definition str_of_int (z : Z) : string := NilZero.string_of_int (Z.to_int z).

Fixpoint str_contains (c : ascii) (s : string) : bool :=
  match s with
  | EmptyString => false
  | String a rest => if Ascii.eqb a c then true else str_contains c rest
  end.

Definition dquote : ascii := ascii_of_N 34.

Definition hex_digit (n : N) : ascii :=
  if (n <? 10)%N then ascii_of_N (48 + n) else ascii_of_N (87 + n).

(** One character of a string literal, inside the quote [q]. *)
Definition repr_char (q : ascii) (c : ascii) : string :=
  let n := N_of_ascii c in
  if Ascii.eqb c "\" then "\\"
  else if Ascii.eqb c q then String "\" (String q EmptyString)
  else if (n =? 10)%N then "\n"
  else if (n =? 13)%N then "\r"
  else if (n =? 9)%N then "\t"
  else if ((n <? 32) || (n =? 127))%N then
    String "\" (String "x" (String (hex_digit (n / 16))
                             (String (hex_digit (n mod 16)) EmptyString)))
  else String c EmptyString.

Fixpoint repr_chars (q : ascii) (s : string) : string :=
  match s with
  | EmptyString => EmptyString
  | String c rest => repr_char q c ++ repr_chars q rest
  end.

(** [repr(s)]: single quotes, unless the string has a single quote and
    no double quote. *)
Definition repr_str (s : string) : string :=
  let q : ascii :=
    if str_contains "'" s && negb (str_contains dquote s)
    then dquote else "'"%char in
  String q (repr_chars q s ++ String q EmptyString).

Fixpoint join (sep : string) (parts : list string) : string :=
  match parts with
  | [] => EmptyString
  | [p] => p
  | p :: rest => p ++ sep ++ join sep rest
  end.

Fixpoint repr (v : value) : string :=
  match v with
  | VNone => "None"
  | VBool true => "True"
  | VBool false => "False"
  | VInt z => str_of_int z
  | VFloat literal => literal
  | VStr s => repr_str s
  | VList items => "[" ++ join ", " (map repr items) ++ "]"
  | VDict entries =>
      "{" ++ join ", "
               (map (fun kv => repr_str (fst kv) ++ ": " ++ repr (snd kv))
                    entries)
          ++ "}"
  end.

(** [str(v)]: a string is itself, any other value is its [repr]. *)
Definition str (v : value) : string :=
  match v with
  | VStr s => s
  | _ => repr v
  end.

End Py.

(** ** Effects: HTTP requests, log records, exceptions *)

Inductive http_method : Type := GET | POST | PUT.

(** Where a request goes: [OnClient base path] is a call on the
    [httpx.Client] built with [base_url=base], which joins [path] to it;
    [Url u] is a call of the module-level [httpx.get/post/put] on [u]. *)
Inductive target : Type :=
| OnClient (base path : string)
| Url (url : string).

(** A request as the program hands it to httpx: the headers are the ones
    the program supplies, [req_json] is the [json=] argument. *)
Record request : Type := {
  req_method : http_method;
  req_target : target;
  req_headers : list (string * string);
  req_json : option Py.dict
}.

(** The body of a response, as [response.json()] sees it. *)
Inductive body : Type :=
| Json (v : Py.value)
| NotJson (decode_error : string).

(** A response.  [status_text] is the message that httpx builds for the
    response when [raise_for_status] rejects it. *)
Record response : Type := {
  status_code : Z;
  status_text : string;
  resp_body : body
}.

(** What a call of httpx yields: a response, or a failure to get one
    (connection refused, timeout, ...), which httpx raises. *)
Inductive http_outcome : Type :=
| Responded (r : response)
| Failed (message : string).

(** The exception classes that the modelled operations raise.  The first
    two derive from [httpx.HTTPError]; all derive from [Exception]. *)
Inductive exc_class : Type :=
| HTTPStatusError
| RequestError
| JSONDecodeError
| AttributeError
| TypeError.

(** An exception; [exc_message] is [str(e)]. *)
Record exn : Type := {
  exc_type : exc_class;
  exc_message : string
}.

Definition is_HTTPError (e : exn) : bool :=
  match exc_type e with
  | HTTPStatusError | RequestError => true
  | _ => false
  end.

Inductive log_level : Type := INFO | ERROR.

(** The observable effects of a run, oldest first. *)
Record world : Type := {
  requests : list request;
  log : list (log_level * string)
}.

Definition initial_world : world := {| requests := []; log := [] |}.

(** The remote side: given the requests already issued and the current
    one, what httpx yields. *)
Definition gateway_t : Type := list request -> request -> http_outcome.

(** *** The monad *)

Inductive outcome (A : Type) : Type :=
| Return (a : A)
| Raise (e : exn).
Arguments Return {A} a.
Arguments Raise {A} e.

Definition M (A : Type) : Type := world -> outcome A * world.

Definition ret {A} (a : A) : M A := fun w => (Return a, w).

Definition raise {A} (e : exn) : M A := fun w => (Raise e, w).

Definition bind {A B} (m : M A) (k : A -> M B) : M B :=
  fun w =>
    match m w with
    | (Return a, w') => k a w'
    | (Raise e, w') => (Raise e, w')
    end.

(** [try: m  except <classes selected by catches> as e: handler e]. *)
Definition try_except {A} (m : M A) (catches : exn -> bool)
           (handler : exn -> M A) : M A :=
  fun w =>
    match m w with
    | (Return a, w') => (Return a, w')
    | (Raise e, w') => if catches e then handler e w' else (Raise e, w')
    end.

Declare Scope py_scope.
Delimit Scope py_scope with py.
Notation "x <- m ;; k" := (bind m (fun x => k))
  (at level 61, m at next level, right associativity) : py_scope.
Notation "m ;;; k" := (bind m (fun _ => k))
  (at level 61, right associativity) : py_scope.
Open Scope py_scope.

Definition logger_info (msg : string) : M unit :=
  fun w => (Return tt, {| requests := requests w; log := log w ++ [(INFO, msg)] |}).

Definition logger_error (msg : string) : M unit :=
  fun w => (Return tt, {| requests := requests w; log := log w ++ [(ERROR, msg)] |}).

(** [except Exception]: every modelled exception. *)
Definition Exception (e : exn) : bool := true.

Module httpx.

Section Transport.
Variable gateway : gateway_t.

(** One call of httpx: the request is recorded, then the remote side
    answers or the call raises [httpx.RequestError]. *)
Definition send (r : request) : M response :=
  fun w =>
    let w' := {| requests := requests w ++ [r]; log := log w |} in
    match gateway (requests w) r with
    | Responded resp => (Return resp, w')
    | Failed message =>
        (Raise {| exc_type := RequestError; exc_message := message |}, w')
    end.
End Transport.

(** [response.is_success]. *)
Definition is_success (r : response) : bool :=
  (200 <=? status_code r) && (status_code r <=? 299).

(** [response.raise_for_status()]. *)
Definition raise_for_status (r : response) : M unit :=
  if is_success r then ret tt
  else raise {| exc_type := HTTPStatusError; exc_message := status_text r |}.

(** [response.json()]. *)
Definition json (r : response) : M Py.value :=
  match resp_body r with
  | Json v => ret v
  | NotJson decode_error =>
      raise {| exc_type := JSONDecodeError; exc_message := decode_error |}
  end.

End httpx.

(** [v.get(key, default)] on a decoded document: a method of
    dictionaries only. *)
Definition value_get (v : Py.value) (key : string) (default : Py.value)
  : M Py.value :=
  match v with
  | Py.VDict d => ret (Py.dict_get key default d)
  | _ =>
      raise {| exc_type := AttributeError;
               exc_message := "'" ++ Py.type_name v
                                  ++ "' object has no attribute 'get'" |}
  end.

(** [len(v)], raising [TypeError] on a value without a length. *)
Definition value_len (v : Py.value) : M Z :=
  match Py.len v with
  | Some n => ret n
  | None =>
      raise {| exc_type := TypeError;
               exc_message := "object of type '" ++ Py.type_name v
                                  ++ "' has no len()" |}
  end.

(** ** [class AIGatewayClient] *)

Module AIGatewayClient.

(** The [httpx.Client] that [__init__] builds. *)
Record http_client : Type := {
  client_base_url : string;
  client_headers : list (string * string)
}.

Record t : Type := {
  base_url : string;
  api_key : string;
  client : http_client
}.

(** [__init__]: the default key becomes a header of the instance's
    client only when it is non-empty. *)
Definition init (base_url api_key : string) : t :=
  {| base_url := base_url;
     api_key := api_key;
     client := {| client_base_url := base_url;
                  client_headers :=
                    if Py.str_truthy api_key
                    then [("X-API-Key", api_key)] else [] |} |}.

Section Methods.
Variable gateway : gateway_t.

Definition list_models (self : t) : M Py.value :=
  try_except
    (response <- httpx.send gateway
                   {| req_method := GET;
                      req_target := OnClient (client_base_url (client self))
                                             "/v1/models";
                      req_headers := client_headers (client self);
                      req_json := None |} ;;
     httpx.raise_for_status response ;;;
     httpx.json response)
    is_HTTPError
    (fun e =>
       logger_error ("Failed to list models: " ++ exc_message e) ;;;
       raise e).

Definition get_custom_mappings (self : t) (user_id api_key : string)
  : M Py.value :=
  try_except
    (let headers := [("X-API-Key", api_key)] in
     response <- httpx.send gateway
                   {| req_method := GET;
                      req_target := Url (base_url self ++ "/api/v1/model-mappings");
                      req_headers := headers;
                      req_json := None |} ;;
     httpx.raise_for_status response ;;;
     document <- httpx.json response ;;
     value_get document "data" (Py.VList []))
    is_HTTPError
    (fun e =>
       logger_error ("Failed to get custom mappings: " ++ exc_message e) ;;;
       raise e).

(** The payload that [create_mapping] builds before it posts. *)
Definition create_payload (alias provider_id model_name description : string)
  : Py.dict :=
  let payload := [("alias", Py.VStr alias);
                  ("provider_id", Py.VStr provider_id);
                  ("model_name", Py.VStr model_name)] in
  if Py.str_truthy description
  then Py.dict_set "description" (Py.VStr description) payload
  else payload.

Definition create_mapping (self : t)
           (api_key alias provider_id model_name description : string)
  : M Py.value :=
  try_except
    (let headers := [("X-API-Key", api_key)] in
     let payload := create_payload alias provider_id model_name description in
     response <- httpx.send gateway
                   {| req_method := POST;
                      req_target := Url (base_url self ++ "/api/v1/model-mappings");
                      req_headers := headers;
                      req_json := Some payload |} ;;
     httpx.raise_for_status response ;;;
     httpx.json response)
    is_HTTPError
    (fun e =>
       logger_error ("Failed to create mapping: " ++ exc_message e) ;;;
       raise e).

(** The payload that [update_mapping] builds before it puts:
    [provider_id] and [model_name] are tested for truth, [description]
    and [enabled] for being [None]. *)
Definition update_payload (provider_id model_name description : option string)
           (enabled : option bool) : Py.dict :=
  let payload : Py.dict := [] in
  let payload :=
    match provider_id with
    | Some s => if Py.str_truthy s
                then Py.dict_set "provider_id" (Py.VStr s) payload
                else payload
    | None => payload
    end in
  let payload :=
    match model_name with
    | Some s => if Py.str_truthy s
                then Py.dict_set "model_name" (Py.VStr s) payload
                else payload
    | None => payload
    end in
  let payload :=
    match description with
    | Some s => Py.dict_set "description" (Py.VStr s) payload
    | None => payload
    end in
  let payload :=
    match enabled with
    | Some b => Py.dict_set "enabled" (Py.VBool b) payload
    | None => payload
    end in
  payload.

Definition update_mapping (self : t) (api_key alias : string)
           (provider_id model_name description : option string)
           (enabled : option bool) : M Py.value :=
  try_except
    (let headers := [("X-API-Key", api_key)] in
     let payload := update_payload provider_id model_name description enabled in
     response <- httpx.send gateway
                   {| req_method := PUT;
                      req_target := Url (base_url self
                                           ++ "/api/v1/model-mappings/" ++ alias);
                      req_headers := headers;
                      req_json := Some payload |} ;;
     httpx.raise_for_status response ;;;
     httpx.json response)
    is_HTTPError
    (fun e =>
       logger_error ("Failed to update mapping: " ++ exc_message e) ;;;
       raise e).
End Methods.

End AIGatewayClient.

(** ** The tool handlers *)

(** [valid_providers] of [create_mapping], as a membership test. *)
Definition valid_providers : list string := ["antigravity"; "openai"; "glm"].

Definition provider_in (provider_id : string) (providers : list string) : bool :=
  existsb (String.eqb provider_id) providers.

(** [s if s else None]. *)
Definition none_if_empty (s : string) : option string :=
  if Py.str_truthy s then Some s else None.

Section Tools.
Variable gateway : gateway_t.

(** The environment variables read when the module is loaded. *)
Variable AIGATEWAY_URL : string.
Variable AIGATEWAY_API_KEY : string.

(** The order in which the interpreter iterates over the set
    [valid_providers]; it depends on the hashing of strings and only
    shows in the text of the validation message. *)
Variable valid_providers_order : list string.

(** The module-level [client]. *)
Definition client : AIGatewayClient.t :=
  AIGatewayClient.init AIGATEWAY_URL AIGATEWAY_API_KEY.

(** The dictionary that [list_models] formats. *)
Definition list_models_result (built_in_models custom_mappings : Py.value)
           (total : Z) : Py.value :=
  Py.VDict [("built_in_models", built_in_models);
            ("custom_mappings", custom_mappings);
            ("total", Py.VInt total)].

Definition list_models (api_key : string) : M string :=
  try_except
    (logger_info ("Listing models for user with API key: "
                    ++ Py.str_prefix 12 api_key ++ "...") ;;;
     models_response <- AIGatewayClient.list_models gateway client ;;
     built_in_models <- value_get models_response "models" (Py.VList []) ;;
     custom_mappings <- AIGatewayClient.get_custom_mappings gateway client
                          "" api_key ;;
     n_built_in <- value_len built_in_models ;;
     n_custom <- value_len custom_mappings ;;
     let total := n_built_in + n_custom in
     let result := list_models_result built_in_models custom_mappings total in
     logger_info ("Returned " ++ Py.str_of_int total ++ " models") ;;;
     ret (Py.str result))
    Exception
    (fun e =>
       let error_msg := "Failed to list models: " ++ exc_message e in
       logger_error error_msg ;;;
       ret ("Error: " ++ error_msg)).

Definition create_mapping
           (api_key alias provider_id model_name description : string)
  : M string :=
  try_except
    (logger_info ("Creating mapping: alias=" ++ alias
                    ++ ", provider=" ++ provider_id) ;;;
     if negb (provider_in provider_id valid_providers)
     then ret ("Error: Invalid provider_id. Must be one of: {"
                 ++ Py.join ", " (map Py.repr_str valid_providers_order)
                 ++ "}")
     else
       result <- AIGatewayClient.create_mapping gateway client
                   api_key alias provider_id model_name description ;;
       logger_info ("Mapping created successfully: " ++ alias) ;;;
       ret (Py.str result))
    Exception
    (fun e =>
       let error_msg := "Failed to create mapping: " ++ exc_message e in
       logger_error error_msg ;;;
       ret ("Error: " ++ error_msg)).

Definition update_mapping
           (api_key alias new_alias provider_id model_name description : string)
           (enabled : option bool) : M string :=
  try_except
    (logger_info ("Updating mapping: alias=" ++ alias) ;;;
     result <- AIGatewayClient.update_mapping gateway client
                 api_key alias
                 (none_if_empty provider_id)
                 (none_if_empty model_name)
                 (none_if_empty description)
                 enabled ;;
     logger_info ("Mapping updated successfully: " ++ alias) ;;;
     ret (Py.str result))
    Exception
    (fun e =>
       let error_msg := "Failed to update mapping: " ++ exc_message e in
       logger_error error_msg ;;;
       ret ("Error: " ++ error_msg)).
End Tools.

(** ** Requests, answers and sample gateways *)

(** The requests that the four methods build. *)
Definition models_request (self : AIGatewayClient.t) : request :=
  {| req_method := GET;
     req_target := OnClient (AIGatewayClient.client_base_url
                               (AIGatewayClient.client self)) "/v1/models";
     req_headers := AIGatewayClient.client_headers (AIGatewayClient.client self);
     req_json := None |}.

Definition mappings_request (self : AIGatewayClient.t) (api_key : string)
  : request :=
  {| req_method := GET;
     req_target := Url (AIGatewayClient.base_url self ++ "/api/v1/model-mappings");
     req_headers := [("X-API-Key", api_key)];
     req_json := None |}.

Definition post_request (self : AIGatewayClient.t) (api_key : string)
           (payload : Py.dict) : request :=
  {| req_method := POST;
     req_target := Url (AIGatewayClient.base_url self ++ "/api/v1/model-mappings");
     req_headers := [("X-API-Key", api_key)];
     req_json := Some payload |}.

Definition put_request (self : AIGatewayClient.t) (api_key alias : string)
           (payload : Py.dict) : request :=
  {| req_method := PUT;
     req_target := Url (AIGatewayClient.base_url self
                          ++ "/api/v1/model-mappings/" ++ alias);
     req_headers := [("X-API-Key", api_key)];
     req_json := Some payload |}.

(** Unfolds the monad and splits on what the gateway answers. *)
Ltac unfold_monad :=
  unfold try_except, bind, ret, raise, logger_info, logger_error,
    httpx.send, httpx.raise_for_status, httpx.json, value_get, value_len,
    Exception in *.

Ltac split_answer :=
  repeat match goal with
    | |- context [match ?g ?past ?r with Responded _ => _ | Failed _ => _ end] =>
        destruct (g past r) as [? | ?]; simpl
    | |- context [if httpx.is_success ?r then _ else _] =>
        destruct (httpx.is_success r); simpl
    | |- context [match resp_body ?r with Json _ => _ | NotJson _ => _ end] =>
        destruct (resp_body r) as [? | ?]; simpl
    end.

(** The gateway answers [r], after the requests [past], with a success
    status and a body that decodes to [v]. *)
Definition answers_json (gateway : gateway_t) (past : list request)
           (r : request) (v : Py.value) : Prop :=
  exists resp,
    gateway past r = Responded resp
    /\ httpx.is_success resp = true
    /\ resp_body resp = Json v.

(** The gateway answers every request with a status outside 200..299. *)
Definition always_fails (gateway : gateway_t) : Prop :=
  forall past r,
  exists resp,
    gateway past r = Responded resp
    /\ (status_code resp < 200 \/ 299 < status_code resp).

(** A gateway that cannot be reached. *)
Definition unreachable : gateway_t :=
  fun _ _ => Failed "All connection attempts failed".

(** A gateway that fails every request with status 500. *)
Definition failing_500 : gateway_t :=
  fun _ _ =>
    Responded {| status_code := 500;
                 status_text := "Server error '500 Internal Server Error'";
                 resp_body := NotJson "Expecting value: line 1 column 1 (char 0)" |}.

Definition ok (v : Py.value) : http_outcome :=
  Responded {| status_code := 200; status_text := "OK"; resp_body := Json v |}.

(** A gateway with two built-in models and one custom mapping, which
    accepts every creation and update. *)
Definition sample_gateway : gateway_t :=
  fun _ r =>
    match req_method r, req_target r with
    | GET, OnClient _ _ =>
        ok (Py.VDict [("object", Py.VStr "list");
                      ("models", Py.VList [Py.VDict [("id", Py.VStr "gpt-4")];
                                           Py.VDict [("id", Py.VStr "glm-4")]])])
    | GET, Url _ =>
        ok (Py.VDict [("data", Py.VList [Py.VDict [("alias", Py.VStr "my-gpt")]])])
    | _, _ => ok (Py.VDict [("status", Py.VStr "ok")])
    end.

(** A response with status 200 and a body that is not JSON, and a
    gateway that gives it to every request. *)
Definition garbled_response : response :=
  {| status_code := 200;
     status_text := "OK";
     resp_body := NotJson "Expecting value: line 1 column 1 (char 0)" |}.

Definition garbled : gateway_t := fun _ _ => Responded garbled_response.

(** A response with status 404, and a gateway that gives it to every
    request. *)
Definition not_found_response : response :=
  {| status_code := 404;
     status_text := "Client error '404 Not Found'";
     resp_body := Json (Py.VDict [("error", Py.VStr "not found")]) |}.

Definition not_found : gateway_t := fun _ _ => Responded not_found_response.

(** A response with status 401, and a gateway that lists the built-in
    models but refuses every other request with it. *)
Definition unauthorized_response : response :=
  {| status_code := 401;
     status_text := "Client error '401 Unauthorized'";
     resp_body := Json (Py.VDict [("error", Py.VStr "invalid API key")]) |}.

Definition sample_gateway_unauthorized : gateway_t :=
  fun _ r =>
    match req_method r, req_target r with
    | GET, OnClient _ _ => ok (Py.VDict [("models", Py.VList [])])
    | _, _ => Responded unauthorized_response
    end.

(** A gateway whose listing of the custom mappings holds [null] under
    "data". *)
Definition sample_gateway_null_data : gateway_t :=
  fun _ r =>
    match req_method r, req_target r with
    | GET, OnClient _ _ => ok (Py.VDict [("models", Py.VList [])])
    | _, _ => ok (Py.VDict [("data", Py.VNone)])
    end.

Definition sample_client : AIGatewayClient.t :=
  AIGatewayClient.init "http://localhost:8088" "".

Definition sample_models : list Py.value :=
  [Py.VDict [("id", Py.VStr "gpt-4")]; Py.VDict [("id", Py.VStr "glm-4")]].

Definition sample_mappings : list Py.value :=
  [Py.VDict [("alias", Py.VStr "my-gpt")]].

(** The same gateway, but its listing of the built-in models has no
    "models" key. *)
Definition sample_gateway_without_models : gateway_t :=
  fun past r =>
    match req_method r, req_target r with
    | GET, OnClient _ _ => ok (Py.VDict [("object", Py.VStr "list")])
    | _, _ => sample_gateway past r
    end.

(** * Properties *)

Example repr_dict :
  Py.repr (Py.VDict [("a", Py.VList [Py.VInt 1; Py.VNone]); ("b", Py.VStr "x'y")])
  = "{'a': [1, None], 'b': " ++ String Py.dquote ("x'y" ++ String Py.dquote "}").
Proof. reflexivity. Qed.

(** ** The requests of the client methods *)

Section ClientRequests.
Variable gateway : gateway_t.
Variable self : AIGatewayClient.t.

Lemma list_models_requests w :
  requests (snd (AIGatewayClient.list_models gateway self w))
  = (requests w ++ [models_request self])%list.
Proof.
  unfold AIGatewayClient.list_models, models_request. unfold_monad.
  simpl. split_answer; reflexivity.
Qed.

Lemma create_mapping_requests api_key alias provider_id model_name description w :
  requests (snd (AIGatewayClient.create_mapping gateway self api_key alias
                   provider_id model_name description w))
  = (requests w
       ++ [post_request self api_key
             (AIGatewayClient.create_payload alias provider_id model_name
                description)])%list.
Proof.
  unfold AIGatewayClient.create_mapping, post_request. unfold_monad.
  simpl. split_answer; reflexivity.
Qed.

Lemma update_mapping_requests api_key alias provider_id model_name description
      enabled w :
  requests (snd (AIGatewayClient.update_mapping gateway self api_key alias
                   provider_id model_name description enabled w))
  = (requests w
       ++ [put_request self api_key alias
             (AIGatewayClient.update_payload provider_id model_name description
                enabled)])%list.
Proof.
  unfold AIGatewayClient.update_mapping, put_request. unfold_monad.
  simpl. split_answer; reflexivity.
Qed.
End ClientRequests.

(** ** The payloads *)

Section Payloads.
Import AIGatewayClient.

(** The payload of a creation: the three mandatory keys, and the
    description when it is not empty. *)
Lemma create_payload_lookup alias provider_id model_name description :
  let payload := create_payload alias provider_id model_name description in
  Py.dict_lookup "alias" payload = Some (Py.VStr alias)
  /\ Py.dict_lookup "provider_id" payload = Some (Py.VStr provider_id)
  /\ Py.dict_lookup "model_name" payload = Some (Py.VStr model_name)
  /\ Py.dict_lookup "description" payload
     = (if Py.str_truthy description then Some (Py.VStr description) else None).
Proof.
  unfold create_payload.
  destruct description as [| c rest]; simpl; repeat split; reflexivity.
Qed.

Lemma update_payload_provider_id provider_id model_name description enabled :
  Py.dict_lookup "provider_id"
    (update_payload provider_id model_name description enabled)
  = (if Py.opt_str_truthy provider_id
     then option_map Py.VStr provider_id else None).
Proof.
  destruct provider_id as [[| ? ?] |], model_name as [[| ? ?] |],
    description as [? |], enabled as [? |]; reflexivity.
Qed.

Lemma update_payload_model_name provider_id model_name description enabled :
  Py.dict_lookup "model_name"
    (update_payload provider_id model_name description enabled)
  = (if Py.opt_str_truthy model_name
     then option_map Py.VStr model_name else None).
Proof.
  destruct provider_id as [[| ? ?] |], model_name as [[| ? ?] |],
    description as [? |], enabled as [? |]; reflexivity.
Qed.

Lemma update_payload_description provider_id model_name description enabled :
  Py.dict_lookup "description"
    (update_payload provider_id model_name description enabled)
  = option_map Py.VStr description.
Proof.
  destruct provider_id as [[| ? ?] |], model_name as [[| ? ?] |],
    description as [? |], enabled as [? |]; reflexivity.
Qed.

Lemma update_payload_enabled provider_id model_name description enabled :
  Py.dict_lookup "enabled"
    (update_payload provider_id model_name description enabled)
  = option_map Py.VBool enabled.
Proof.
  destruct provider_id as [[| ? ?] |], model_name as [[| ? ?] |],
    description as [? |], enabled as [? |]; reflexivity.
Qed.

(** No key other than the four optional fields is ever set. *)
Lemma update_payload_keys provider_id model_name description enabled key :
  In key (Py.dict_keys
            (update_payload provider_id model_name description enabled)) ->
  In key ["provider_id"; "model_name"; "description"; "enabled"].
Proof.
  destruct provider_id as [[| ? ?] |], model_name as [[| ? ?] |],
    description as [? |], enabled as [? |]; simpl; intuition.
Qed.

(** A key that is not looked up successfully is not among the keys. *)
Lemma dict_lookup_none_not_key key (d : Py.dict) :
  Py.dict_lookup key d = None -> ~ In key (Py.dict_keys d).
Proof.
  induction d as [| [k v] rest IH]; simpl; intros Hlookup Hin.
  - exact Hin.
  - destruct (String.eqb_spec k key) as [Heq | Hneq].
    + discriminate Hlookup.
    + destruct Hin as [Hk | Hrest]; [exact (Hneq Hk) | exact (IH Hlookup Hrest)].
Qed.
End Payloads.

Lemma none_if_empty_truthy s :
  Py.opt_str_truthy (none_if_empty s) = Py.str_truthy s.
Proof. destruct s; reflexivity. Qed.

Lemma none_if_empty_value s :
  (if Py.str_truthy s then option_map Py.VStr (none_if_empty s) else None)
  = (if Py.str_truthy s then Some (Py.VStr s) else None).
Proof. destruct s; reflexivity. Qed.

(** ** The requests of the handlers *)

#[local] Arguments provider_in : simpl never.

Section ToolRequests.
Variable gateway : gateway_t.
Variables AIGATEWAY_URL AIGATEWAY_API_KEY : string.
Variable valid_providers_order : list string.

Let the_client := client AIGATEWAY_URL AIGATEWAY_API_KEY.

Lemma update_mapping_tool_requests api_key alias new_alias provider_id
      model_name description enabled w :
  requests (snd (update_mapping gateway AIGATEWAY_URL AIGATEWAY_API_KEY
                   api_key alias new_alias provider_id model_name
                   description enabled w))
  = (requests w
       ++ [put_request the_client api_key alias
             (AIGatewayClient.update_payload
                (none_if_empty provider_id) (none_if_empty model_name)
                (none_if_empty description) enabled)])%list.
Proof.
  unfold update_mapping, AIGatewayClient.update_mapping, put_request.
  unfold_monad. simpl. split_answer; reflexivity.
Qed.

Lemma create_mapping_tool_requests api_key alias provider_id model_name
      description w :
  provider_in provider_id valid_providers = true ->
  requests (snd (create_mapping gateway AIGATEWAY_URL AIGATEWAY_API_KEY
                   valid_providers_order
                   api_key alias provider_id model_name description w))
  = (requests w
       ++ [post_request the_client api_key
             (AIGatewayClient.create_payload alias provider_id model_name
                description)])%list.
Proof.
  intros Hvalid.
  unfold create_mapping, AIGatewayClient.create_mapping, post_request.
  unfold_monad. simpl. rewrite Hvalid. simpl. split_answer; reflexivity.
Qed.

Lemma create_mapping_tool_rejects api_key alias provider_id model_name
      description w :
  provider_in provider_id valid_providers = false ->
  create_mapping gateway AIGATEWAY_URL AIGATEWAY_API_KEY valid_providers_order
    api_key alias provider_id model_name description w
  = (Return ("Error: Invalid provider_id. Must be one of: {"
               ++ Py.join ", " (map Py.repr_str valid_providers_order) ++ "}"),
     {| requests := requests w;
        log := (log w ++ [(INFO, ("Creating mapping: alias=" ++ alias
                                    ++ ", provider=" ++ provider_id)%string)])%list |}).
Proof.
  intros Hinvalid. unfold create_mapping. unfold_monad. simpl.
  rewrite Hinvalid. reflexivity.
Qed.
End ToolRequests.

Lemma provider_in_false provider_id :
  ~ In provider_id valid_providers ->
  provider_in provider_id valid_providers = false.
Proof.
  unfold provider_in, valid_providers. cbn. intros Hnot.
  destruct (String.eqb_spec provider_id "antigravity") as [H1 | _];
    [exfalso; apply Hnot; auto |].
  destruct (String.eqb_spec provider_id "openai") as [H2 | _];
    [exfalso; apply Hnot; auto |].
  destruct (String.eqb_spec provider_id "glm") as [H3 | _];
    [exfalso; apply Hnot; auto |].
  reflexivity.
Qed.

(** ** Validation of the provider *)

(** C1: whenever [provider_id] is none of antigravity, openai and glm,
    the [create_mapping] handler returns a string that starts with
    "Error:" and issues no HTTP request: the requests recorded after the
    call are those recorded before it. *)
Theorem create_mapping_invalid_provider
        gateway url key order api_key alias provider_id model_name description w :
  ~ In provider_id valid_providers ->
  exists s,
    fst (create_mapping gateway url key order
           api_key alias provider_id model_name description w) = Return s
    /\ String.prefix "Error:" s = true
    /\ requests (snd (create_mapping gateway url key order
                        api_key alias provider_id model_name description w))
       = requests w.
Proof.
  intros Hnot. apply provider_in_false in Hnot.
  rewrite create_mapping_tool_rejects by exact Hnot.
  eexists. repeat split.
Qed.

Lemma create_mapping_invalid_provider_witness :
  ~ In "anthropic" valid_providers
  /\ exists s,
      fst (create_mapping sample_gateway "http://localhost:8088" ""
             ["glm"; "openai"; "antigravity"]
             "ak_1" "my-claude" "anthropic" "claude-3" "" initial_world)
      = Return s
      /\ String.prefix "Error:" s = true
      /\ requests (snd (create_mapping sample_gateway "http://localhost:8088" ""
                          ["glm"; "openai"; "antigravity"]
                          "ak_1" "my-claude" "anthropic" "claude-3" ""
                          initial_world))
         = requests initial_world.
Proof.
  assert (Hnot : ~ In "anthropic" valid_providers)
    by (cbn; intuition discriminate).
  split; [exact Hnot | apply create_mapping_invalid_provider; exact Hnot].
Defined.

(** ** The body of an update *)

(** C3, as the code has it: [AIGatewayClient.update_mapping] issues one
    PUT whose body holds [provider_id] and [model_name] exactly when the
    argument is a non-empty string, [description] and [enabled] exactly
    when the argument is not [None], each with the value passed, and no
    other key. *)
Theorem updateMapping_body_fields
        gateway self api_key alias provider_id model_name description enabled w :
  exists payload,
    requests (snd (AIGatewayClient.update_mapping gateway self api_key alias
                     provider_id model_name description enabled w))
    = (requests w ++ [put_request self api_key alias payload])%list
    /\ Py.dict_lookup "provider_id" payload
       = (if Py.opt_str_truthy provider_id
          then option_map Py.VStr provider_id else None)
    /\ Py.dict_lookup "model_name" payload
       = (if Py.opt_str_truthy model_name
          then option_map Py.VStr model_name else None)
    /\ Py.dict_lookup "description" payload = option_map Py.VStr description
    /\ Py.dict_lookup "enabled" payload = option_map Py.VBool enabled
    /\ (forall key,
          In key (Py.dict_keys payload) ->
          In key ["provider_id"; "model_name"; "description"; "enabled"]).
Proof.
  exists (AIGatewayClient.update_payload provider_id model_name description
            enabled).
  split; [apply update_mapping_requests |].
  split; [apply update_payload_provider_id |].
  split; [apply update_payload_model_name |].
  split; [apply update_payload_description |].
  split; [apply update_payload_enabled |].
  intros key. apply update_payload_keys.
Qed.

(** C3, as stated, fails: [provider_id] passed as the empty string is
    not [None], and yet the body of the PUT is empty. *)
Lemma updateMapping_empty_provider_id_absent :
  Some "" <> @None string
  /\ exists payload,
      requests (snd (AIGatewayClient.update_mapping sample_gateway sample_client
                       "ak_1" "my-gpt" (Some "") None None None initial_world))
      = [put_request sample_client "ak_1" "my-gpt" payload]
      /\ Py.dict_mem "provider_id" payload = false.
Proof.
  split; [discriminate |]. exists []. split; reflexivity.
Qed.

(** C4: the [update_mapping] handler issues one PUT whose body holds
    [provider_id], [model_name] and [description] exactly when the input
    is a non-empty string, and [enabled] exactly when it is set; the body
    has no other key. *)
Theorem update_mapping_omits_empty_fields
        gateway url key api_key alias new_alias provider_id model_name
        description enabled w :
  exists payload,
    requests (snd (update_mapping gateway url key api_key alias new_alias
                     provider_id model_name description enabled w))
    = (requests w ++ [put_request (client url key) api_key alias payload])%list
    /\ Py.dict_lookup "provider_id" payload
       = (if Py.str_truthy provider_id then Some (Py.VStr provider_id) else None)
    /\ Py.dict_lookup "model_name" payload
       = (if Py.str_truthy model_name then Some (Py.VStr model_name) else None)
    /\ Py.dict_lookup "description" payload
       = (if Py.str_truthy description then Some (Py.VStr description) else None)
    /\ Py.dict_lookup "enabled" payload = option_map Py.VBool enabled
    /\ (forall field,
          In field (Py.dict_keys payload) ->
          In field ["provider_id"; "model_name"; "description"; "enabled"]).
Proof.
  eexists. split; [apply update_mapping_tool_requests |].
  split.
  { rewrite update_payload_provider_id, none_if_empty_truthy.
    apply none_if_empty_value. }
  split.
  { rewrite update_payload_model_name, none_if_empty_truthy.
    apply none_if_empty_value. }
  split.
  { rewrite update_payload_description.
    destruct description; reflexivity. }
  split; [apply update_payload_enabled |].
  intros field. apply update_payload_keys.
Qed.

(** C10: with [enabled=False] the body of the PUT that the
    [update_mapping] handler issues has the key "enabled" with the value
    [False]. *)
Theorem update_mapping_forwards_false
        gateway url key api_key alias new_alias provider_id model_name
        description w :
  exists payload,
    requests (snd (update_mapping gateway url key api_key alias new_alias
                     provider_id model_name description (Some false) w))
    = (requests w ++ [put_request (client url key) api_key alias payload])%list
    /\ Py.dict_lookup "enabled" payload = Some (Py.VBool false).
Proof.
  eexists. split; [apply update_mapping_tool_requests |].
  apply update_payload_enabled.
Qed.

(** C8: two calls of the [update_mapping] handler that differ in
    [new_alias] only have the same result and the same effects: the same
    requests, with the same arguments, and the same log. *)
Theorem update_mapping_new_alias_unused
        gateway url key api_key alias new_alias new_alias' provider_id
        model_name description enabled w :
  update_mapping gateway url key api_key alias new_alias
    provider_id model_name description enabled w
  = update_mapping gateway url key api_key alias new_alias'
      provider_id model_name description enabled w.
Proof. reflexivity. Qed.

(** ** The body of a creation *)

(** C6: the [create_mapping] handler called with alias "my-gpt",
    provider "openai", model "gpt-4" and an empty description posts a body
    with the keys alias, provider_id and model_name and no description;
    and [AIGatewayClient.create_mapping] always posts a body with the
    three keys, where "description" is present exactly when the argument
    is not empty. *)
Theorem create_mapping_description_when_nonempty :
  (forall gateway url key order api_key w,
      requests (snd (create_mapping gateway url key order
                       api_key "my-gpt" "openai" "gpt-4" "" w))
      = (requests w
           ++ [post_request (client url key) api_key
                 [("alias", Py.VStr "my-gpt");
                  ("provider_id", Py.VStr "openai");
                  ("model_name", Py.VStr "gpt-4")]])%list)
  /\ (forall gateway self api_key alias provider_id model_name description w,
         exists payload,
           requests (snd (AIGatewayClient.create_mapping gateway self api_key
                            alias provider_id model_name description w))
           = (requests w ++ [post_request self api_key payload])%list
           /\ Py.dict_lookup "alias" payload = Some (Py.VStr alias)
           /\ Py.dict_lookup "provider_id" payload = Some (Py.VStr provider_id)
           /\ Py.dict_lookup "model_name" payload = Some (Py.VStr model_name)
           /\ Py.dict_lookup "description" payload
              = (if Py.str_truthy description
                 then Some (Py.VStr description) else None)).
Proof.
  split.
  - intros. rewrite create_mapping_tool_requests by reflexivity. reflexivity.
  - intros. eexists. split; [apply create_mapping_requests |].
    apply create_payload_lookup.
Qed.

(** ** Successful calls of the client *)

Section ClientAnswers.
Variable gateway : gateway_t.
Variable self : AIGatewayClient.t.

Lemma list_models_ok w v :
  answers_json gateway (requests w) (models_request self) v ->
  AIGatewayClient.list_models gateway self w
  = (Return v,
     {| requests := (requests w ++ [models_request self])%list;
        log := log w |}).
Proof.
  intros (resp & Hanswer & Hstatus & Hbody).
  unfold AIGatewayClient.list_models. unfold models_request in *.
  unfold_monad. rewrite Hanswer. simpl. rewrite Hstatus. simpl.
  rewrite Hbody. reflexivity.
Qed.

Lemma get_custom_mappings_ok user_id api_key w d :
  answers_json gateway (requests w) (mappings_request self api_key)
    (Py.VDict d) ->
  AIGatewayClient.get_custom_mappings gateway self user_id api_key w
  = (Return (Py.dict_get "data" (Py.VList []) d),
     {| requests := (requests w ++ [mappings_request self api_key])%list;
        log := log w |}).
Proof.
  intros (resp & Hanswer & Hstatus & Hbody).
  unfold AIGatewayClient.get_custom_mappings. unfold mappings_request in *.
  unfold_monad. rewrite Hanswer. simpl. rewrite Hstatus. simpl.
  rewrite Hbody. reflexivity.
Qed.

(** A body that decodes to something other than an object makes
    [get_custom_mappings] raise [AttributeError], which its handler for
    [httpx.HTTPError] lets through. *)
Lemma get_custom_mappings_not_object user_id api_key w v :
  answers_json gateway (requests w) (mappings_request self api_key) v ->
  (forall d, v <> Py.VDict d) ->
  exists e,
    fst (AIGatewayClient.get_custom_mappings gateway self user_id api_key w)
    = Raise e
    /\ exc_type e = AttributeError.
Proof.
  intros (resp & Hanswer & Hstatus & Hbody) Hnot.
  unfold AIGatewayClient.get_custom_mappings. unfold mappings_request in *.
  unfold_monad. rewrite Hanswer. simpl. rewrite Hstatus. simpl.
  rewrite Hbody.
  destruct v; simpl; try (eexists; split; reflexivity).
  exfalso. eapply Hnot. reflexivity.
Qed.
End ClientAnswers.

(** C7: when the gateway answers the request of [get_custom_mappings]
    with a success status and a JSON object, the method returns the value
    of the key "data" of that object, and the empty list when the object
    has no such key. *)
Theorem get_custom_mappings_returns_data
        gateway self user_id api_key w d :
  answers_json gateway (requests w) (mappings_request self api_key)
    (Py.VDict d) ->
  fst (AIGatewayClient.get_custom_mappings gateway self user_id api_key w)
  = Return (match Py.dict_lookup "data" d with
            | Some data => data
            | None => Py.VList []
            end).
Proof.
  intros Hanswer.
  rewrite get_custom_mappings_ok with (d := d) by exact Hanswer.
  reflexivity.
Qed.

Lemma get_custom_mappings_returns_data_witness :
  answers_json sample_gateway (requests initial_world)
    (mappings_request sample_client "ak_1")
    (Py.VDict [("data", Py.VList [Py.VDict [("alias", Py.VStr "my-gpt")]])])
  /\ fst (AIGatewayClient.get_custom_mappings sample_gateway sample_client
            "" "ak_1" initial_world)
     = Return (Py.VList [Py.VDict [("alias", Py.VStr "my-gpt")]]).
Proof.
  assert (Hanswer :
            answers_json sample_gateway (requests initial_world)
              (mappings_request sample_client "ak_1")
              (Py.VDict [("data",
                          Py.VList [Py.VDict [("alias", Py.VStr "my-gpt")]])])).
  { eexists. repeat split. }
  split; [exact Hanswer |].
  exact (get_custom_mappings_returns_data
           sample_gateway sample_client "" "ak_1" initial_world _ Hanswer).
Defined.

(** ** The listing *)

Section Listing.
Variable gateway : gateway_t.
Variables AIGATEWAY_URL AIGATEWAY_API_KEY : string.

Let the_client := client AIGATEWAY_URL AIGATEWAY_API_KEY.

(** When both calls succeed with JSON objects and both values have a
    length, the handler formats the value of "models", the value of
    "data" and the sum of their lengths. *)
Lemma list_models_formats api_key w models_response mappings_response n m :
  answers_json gateway (requests w) (models_request the_client)
    (Py.VDict models_response) ->
  answers_json gateway (requests w ++ [models_request the_client])%list
    (mappings_request the_client api_key) (Py.VDict mappings_response) ->
  Py.len (Py.dict_get "models" (Py.VList []) models_response) = Some n ->
  Py.len (Py.dict_get "data" (Py.VList []) mappings_response) = Some m ->
  fst (list_models gateway AIGATEWAY_URL AIGATEWAY_API_KEY api_key w)
  = Return (Py.str (list_models_result
                      (Py.dict_get "models" (Py.VList []) models_response)
                      (Py.dict_get "data" (Py.VList []) mappings_response)
                      (n + m))).
Proof.
  intros Hmodels Hmappings Hn Hm.
  unfold list_models, try_except, bind, logger_info.
  cbn beta iota.
  rewrite list_models_ok with (v := Py.VDict models_response)
    by exact Hmodels.
  cbn beta iota delta [value_get ret].
  rewrite get_custom_mappings_ok with (d := mappings_response)
    by exact Hmappings.
  unfold value_len. rewrite Hn. cbn beta iota delta [ret].
  rewrite Hm. reflexivity.
Qed.
End Listing.

(** C2: when the listing of the built-in models yields an object whose
    "models" is a list (the empty list when the key is absent) and the
    listing of the custom mappings yields a list, the handler formats a
    dictionary whose "total" is the sum of the lengths of the two lists. *)
Theorem list_models_total
        gateway url key api_key w models_response mappings_response
        (built_in_models custom_mappings : list Py.value) :
  answers_json gateway (requests w) (models_request (client url key))
    (Py.VDict models_response) ->
  Py.dict_get "models" (Py.VList []) models_response = Py.VList built_in_models ->
  answers_json gateway (requests w ++ [models_request (client url key)])%list
    (mappings_request (client url key) api_key) (Py.VDict mappings_response) ->
  Py.dict_get "data" (Py.VList []) mappings_response = Py.VList custom_mappings ->
  fst (list_models gateway url key api_key w)
  = Return (Py.str (Py.VDict
                      [("built_in_models", Py.VList built_in_models);
                       ("custom_mappings", Py.VList custom_mappings);
                       ("total",
                        Py.VInt (Z.of_nat (List.length built_in_models)
                                 + Z.of_nat (List.length custom_mappings)))])).
Proof.
  intros Hmodels Hbuilt_in Hmappings Hcustom.
  rewrite (list_models_formats gateway url key api_key w
             models_response mappings_response
             (Z.of_nat (List.length built_in_models))
             (Z.of_nat (List.length custom_mappings)) Hmodels Hmappings).
  - rewrite Hbuilt_in, Hcustom. reflexivity.
  - rewrite Hbuilt_in. reflexivity.
  - rewrite Hcustom. reflexivity.
Qed.

(** C9: when both calls succeed, the "built_in_models" that the handler
    formats is the value of the key "models" of the object that
    [AIGatewayClient.list_models] returned, and the empty list when the
    object has no such key; it is never the object itself. *)
Theorem list_models_built_in_is_models_key
        gateway url key api_key w models_response mappings_response n m :
  answers_json gateway (requests w) (models_request (client url key))
    (Py.VDict models_response) ->
  answers_json gateway (requests w ++ [models_request (client url key)])%list
    (mappings_request (client url key) api_key) (Py.VDict mappings_response) ->
  Py.len (Py.dict_get "models" (Py.VList []) models_response) = Some n ->
  Py.len (Py.dict_get "data" (Py.VList []) mappings_response) = Some m ->
  fst (list_models gateway url key api_key w)
  = Return (Py.str (Py.VDict
                      [("built_in_models",
                        match Py.dict_lookup "models" models_response with
                        | Some models => models
                        | None => Py.VList []
                        end);
                       ("custom_mappings",
                        Py.dict_get "data" (Py.VList []) mappings_response);
                       ("total", Py.VInt (n + m))])).
Proof.
  intros Hmodels Hmappings Hn Hm.
  exact (list_models_formats gateway url key api_key w
           models_response mappings_response n m Hmodels Hmappings Hn Hm).
Qed.

Lemma list_models_total_witness :
  answers_json sample_gateway (requests initial_world)
    (models_request (client "http://localhost:8088" ""))
    (Py.VDict [("object", Py.VStr "list"); ("models", Py.VList sample_models)])
  /\ Py.dict_get "models" (Py.VList [])
       [("object", Py.VStr "list"); ("models", Py.VList sample_models)]
     = Py.VList sample_models
  /\ answers_json sample_gateway
       (requests initial_world
          ++ [models_request (client "http://localhost:8088" "")])%list
       (mappings_request (client "http://localhost:8088" "") "ak_1")
       (Py.VDict [("data", Py.VList sample_mappings)])
  /\ Py.dict_get "data" (Py.VList []) [("data", Py.VList sample_mappings)]
     = Py.VList sample_mappings
  /\ fst (list_models sample_gateway "http://localhost:8088" "" "ak_1"
            initial_world)
     = Return ("{'built_in_models': [{'id': 'gpt-4'}, {'id': 'glm-4'}], "
                 ++ "'custom_mappings': [{'alias': 'my-gpt'}], 'total': 3}").
Proof.
  assert (Hmodels :
            answers_json sample_gateway (requests initial_world)
              (models_request (client "http://localhost:8088" ""))
              (Py.VDict [("object", Py.VStr "list");
                         ("models", Py.VList sample_models)])).
  { eexists. repeat split. }
  assert (Hmappings :
            answers_json sample_gateway
              (requests initial_world
                 ++ [models_request (client "http://localhost:8088" "")])%list
              (mappings_request (client "http://localhost:8088" "") "ak_1")
              (Py.VDict [("data", Py.VList sample_mappings)])).
  { eexists. repeat split. }
  split; [exact Hmodels |]. split; [reflexivity |].
  split; [exact Hmappings |]. split; [reflexivity |].
  exact (list_models_total sample_gateway "http://localhost:8088" "" "ak_1"
           initial_world _ _ sample_models sample_mappings
           Hmodels eq_refl Hmappings eq_refl).
Defined.

Lemma list_models_built_in_is_models_key_witness :
  answers_json sample_gateway_without_models (requests initial_world)
    (models_request (client "http://localhost:8088" ""))
    (Py.VDict [("object", Py.VStr "list")])
  /\ answers_json sample_gateway_without_models
       (requests initial_world
          ++ [models_request (client "http://localhost:8088" "")])%list
       (mappings_request (client "http://localhost:8088" "") "ak_1")
       (Py.VDict [("data", Py.VList sample_mappings)])
  /\ Py.len (Py.dict_get "models" (Py.VList []) [("object", Py.VStr "list")])
     = Some 0
  /\ Py.len (Py.dict_get "data" (Py.VList [])
               [("data", Py.VList sample_mappings)])
     = Some 1
  /\ fst (list_models sample_gateway_without_models "http://localhost:8088" ""
            "ak_1" initial_world)
     = Return ("{'built_in_models': [], "
                 ++ "'custom_mappings': [{'alias': 'my-gpt'}], 'total': 1}").
Proof.
  assert (Hmodels :
            answers_json sample_gateway_without_models (requests initial_world)
              (models_request (client "http://localhost:8088" ""))
              (Py.VDict [("object", Py.VStr "list")])).
  { eexists. repeat split. }
  assert (Hmappings :
            answers_json sample_gateway_without_models
              (requests initial_world
                 ++ [models_request (client "http://localhost:8088" "")])%list
              (mappings_request (client "http://localhost:8088" "") "ak_1")
              (Py.VDict [("data", Py.VList sample_mappings)])).
  { eexists. repeat split. }
  split; [exact Hmodels |]. split; [exact Hmappings |].
  split; [reflexivity |]. split; [reflexivity |].
  exact (list_models_built_in_is_models_key sample_gateway_without_models
           "http://localhost:8088" "" "ak_1" initial_world _ _ 0 1
           Hmodels Hmappings eq_refl eq_refl).
Defined.

(** ** Failures of the gateway *)

Lemma not_success resp :
  status_code resp < 200 \/ 299 < status_code resp ->
  httpx.is_success resp = false.
Proof.
  unfold httpx.is_success. intros [Hlow | Hhigh].
  - apply andb_false_intro1. apply Z.leb_gt. exact Hlow.
  - apply andb_false_intro2. apply Z.leb_gt. exact Hhigh.
Qed.

Ltac answer_fails H :=
  match goal with
  | |- context [match ?g ?past ?r with Responded _ => _ | Failed _ => _ end] =>
      let resp := fresh "resp" in
      let Hanswer := fresh "Hanswer" in
      let Hstatus := fresh "Hstatus" in
      destruct (H past r) as (resp & Hanswer & Hstatus);
      rewrite Hanswer; simpl;
      rewrite (not_success resp Hstatus); simpl
  end.

(** C5: when the gateway answers every request with a status outside
    200..299, each of the three handlers returns, as a normal result, a
    string that starts with "Error:". *)
Theorem handlers_return_error_strings gateway url key order :
  always_fails gateway ->
  (forall api_key w,
      exists s,
        fst (list_models gateway url key api_key w) = Return s
        /\ String.prefix "Error:" s = true)
  /\ (forall api_key alias provider_id model_name description w,
         exists s,
           fst (create_mapping gateway url key order
                  api_key alias provider_id model_name description w)
           = Return s
           /\ String.prefix "Error:" s = true)
  /\ (forall api_key alias new_alias provider_id model_name description enabled w,
         exists s,
           fst (update_mapping gateway url key
                  api_key alias new_alias provider_id model_name description
                  enabled w)
           = Return s
           /\ String.prefix "Error:" s = true).
Proof.
  intros Hfails. repeat split.
  - intros. unfold list_models, AIGatewayClient.list_models. unfold_monad.
    simpl. answer_fails Hfails. eexists. split; reflexivity.
  - intros.
    destruct (provider_in provider_id valid_providers) eqn:Hprovider.
    + unfold create_mapping, AIGatewayClient.create_mapping. unfold_monad.
      simpl. rewrite Hprovider. simpl. answer_fails Hfails.
      eexists. split; reflexivity.
    + rewrite create_mapping_tool_rejects by exact Hprovider.
      eexists. split; reflexivity.
  - intros. unfold update_mapping, AIGatewayClient.update_mapping.
    unfold_monad. simpl. answer_fails Hfails. eexists. split; reflexivity.
Qed.

Lemma handlers_return_error_strings_witness :
  always_fails failing_500
  /\ (exists s,
         fst (list_models failing_500 "http://localhost:8088" "" "ak_1"
                initial_world) = Return s
         /\ String.prefix "Error:" s = true)
  /\ (exists s,
         fst (create_mapping failing_500 "http://localhost:8088" ""
                ["glm"; "openai"; "antigravity"]
                "ak_1" "my-gpt" "openai" "gpt-4" "" initial_world) = Return s
         /\ String.prefix "Error:" s = true)
  /\ (exists s,
         fst (update_mapping failing_500 "http://localhost:8088" ""
                "ak_1" "my-gpt" "" "" "gpt-4o" "" None initial_world) = Return s
         /\ String.prefix "Error:" s = true).
Proof.
  assert (Hfails : always_fails failing_500).
  { intros past r. eexists. split; [reflexivity |]. right. reflexivity. }
  destruct (handlers_return_error_strings failing_500 "http://localhost:8088" ""
              ["glm"; "openai"; "antigravity"] Hfails)
    as (Hlist & Hcreate & Hupdate).
  split; [exact Hfails |].
  split; [apply Hlist |].
  split; [apply Hcreate | apply Hupdate].
Defined.

(** Whatever the gateway does, no handler raises: each one ends with a
    string. *)
Lemma list_models_never_raises gateway url key api_key w :
  exists s, fst (list_models gateway url key api_key w) = Return s.
Proof.
  unfold list_models, try_except, Exception.
  match goal with
  | |- context [match ?run w with _ => _ end] =>
      destruct (run w) as [[s | e] w']
  end; eexists; reflexivity.
Qed.

Lemma create_mapping_never_raises
      gateway url key order api_key alias provider_id model_name description w :
  exists s,
    fst (create_mapping gateway url key order
           api_key alias provider_id model_name description w) = Return s.
Proof.
  unfold create_mapping, try_except, Exception.
  match goal with
  | |- context [match ?run w with _ => _ end] =>
      destruct (run w) as [[s | e] w']
  end; eexists; reflexivity.
Qed.

Lemma update_mapping_never_raises
      gateway url key api_key alias new_alias provider_id model_name description
      enabled w :
  exists s,
    fst (update_mapping gateway url key api_key alias new_alias
           provider_id model_name description enabled w) = Return s.
Proof.
  unfold update_mapping, try_except, Exception.
  match goal with
  | |- context [match ?run w with _ => _ end] =>
      destruct (run w) as [[s | e] w']
  end; eexists; reflexivity.
Qed.

(** The listing also ends with an error string when only its second
    request is refused. *)
Lemma list_models_mappings_refused
      gateway url key api_key w models_response resp :
  answers_json gateway (requests w) (models_request (client url key))
    (Py.VDict models_response) ->
  gateway (requests w ++ [models_request (client url key)])%list
    (mappings_request (client url key) api_key) = Responded resp ->
  status_code resp < 200 \/ 299 < status_code resp ->
  fst (list_models gateway url key api_key w)
  = Return ("Error: Failed to list models: " ++ status_text resp).
Proof.
  intros Hmodels Hanswer Hstatus.
  unfold list_models, try_except, bind, logger_info.
  cbn beta iota.
  rewrite list_models_ok with (v := Py.VDict models_response) by exact Hmodels.
  cbn beta iota delta [value_get ret].
  unfold AIGatewayClient.get_custom_mappings. unfold mappings_request in *.
  unfold_monad. cbn [requests].
  rewrite Hanswer. simpl. rewrite (not_success resp Hstatus). reflexivity.
Qed.

(** ** Runs on the sample gateways *)

Example list_models_on_failure :
  list_models failing_500 "http://localhost:8088" "" "ak_1234567890abcdef"
    initial_world
  = (Return "Error: Failed to list models: Server error '500 Internal Server Error'",
     {| requests := [models_request sample_client];
        log := [(INFO, "Listing models for user with API key: ak_123456789...");
                (ERROR, "Failed to list models: Server error '500 Internal Server Error'");
                (ERROR, "Failed to list models: Server error '500 Internal Server Error'")] |}).
Proof. reflexivity. Qed.

Example create_mapping_on_sample :
  create_mapping sample_gateway "http://localhost:8088" ""
    ["glm"; "openai"; "antigravity"] "ak_1" "my-gpt" "openai" "gpt-4" ""
    initial_world
  = (Return "{'status': 'ok'}",
     {| requests := [post_request sample_client "ak_1"
                       [("alias", Py.VStr "my-gpt");
                        ("provider_id", Py.VStr "openai");
                        ("model_name", Py.VStr "gpt-4")]];
        log := [(INFO, "Creating mapping: alias=my-gpt, provider=openai");
                (INFO, "Mapping created successfully: my-gpt")] |}).
Proof. reflexivity. Qed.

Example create_mapping_rejected :
  create_mapping sample_gateway "http://localhost:8088" ""
    ["glm"; "openai"; "antigravity"] "ak_1" "my-claude" "anthropic" "claude-3" ""
    initial_world
  = (Return "Error: Invalid provider_id. Must be one of: {'glm', 'openai', 'antigravity'}",
     {| requests := [];
        log := [(INFO, "Creating mapping: alias=my-claude, provider=anthropic")] |}).
Proof. reflexivity. Qed.

Example update_mapping_on_sample :
  update_mapping sample_gateway "http://localhost:8088" ""
    "ak_1" "my-gpt" "renamed" "" "gpt-4o" "" (Some false) initial_world
  = (Return "{'status': 'ok'}",
     {| requests := [put_request sample_client "ak_1" "my-gpt"
                       [("model_name", Py.VStr "gpt-4o");
                        ("enabled", Py.VBool false)]];
        log := [(INFO, "Updating mapping: alias=my-gpt");
                (INFO, "Mapping updated successfully: my-gpt")] |}).
Proof. reflexivity. Qed.

(** A listing of the built-in models that is a JSON array makes the
    handler report the [AttributeError] of [.get]. *)
Example list_models_on_array :
  fst (list_models (fun _ _ => ok (Py.VList [])) "http://localhost:8088" ""
         "ak_1" initial_world)
  = Return "Error: Failed to list models: 'list' object has no attribute 'get'".
Proof. reflexivity. Qed.

(** * Further properties of the client and of the handlers *)

(** ** One request per call *)

Lemma get_custom_mappings_requests gateway self user_id api_key w :
  requests (snd (AIGatewayClient.get_custom_mappings gateway self user_id
                   api_key w))
  = (requests w ++ [mappings_request self api_key])%list.
Proof.
  unfold AIGatewayClient.get_custom_mappings, mappings_request. unfold_monad.
  simpl. split_answer; try reflexivity.
  match goal with
  | |- context [match ?v with Py.VDict _ => _ | _ => _ end] => destruct v
  end; reflexivity.
Qed.

(** X1: each of the four methods of the client issues exactly one
    request, whatever the gateway answers: a failure is never retried. *)
Theorem client_methods_issue_one_request gateway self w :
  requests (snd (AIGatewayClient.list_models gateway self w))
  = (requests w ++ [models_request self])%list
  /\ (forall user_id api_key,
         requests (snd (AIGatewayClient.get_custom_mappings gateway self
                          user_id api_key w))
         = (requests w ++ [mappings_request self api_key])%list)
  /\ (forall api_key alias provider_id model_name description,
         requests (snd (AIGatewayClient.create_mapping gateway self api_key
                          alias provider_id model_name description w))
         = (requests w
              ++ [post_request self api_key
                    (AIGatewayClient.create_payload alias provider_id
                       model_name description)])%list)
  /\ (forall api_key alias provider_id model_name description enabled,
         requests (snd (AIGatewayClient.update_mapping gateway self api_key
                          alias provider_id model_name description enabled w))
         = (requests w
              ++ [put_request self api_key alias
                    (AIGatewayClient.update_payload provider_id model_name
                       description enabled)])%list).
Proof.
  split; [apply list_models_requests |].
  split; [intros; apply get_custom_mappings_requests |].
  split; [intros; apply create_mapping_requests |].
  intros; apply update_mapping_requests.
Qed.

(** ** The handlers end with a string *)

(** X2: whatever the gateway does (no answer, any status, any body),
    each of the three handlers returns a string and raises nothing. *)
Theorem handlers_never_raise gateway url key order :
  (forall api_key w,
      exists s, fst (list_models gateway url key api_key w) = Return s)
  /\ (forall api_key alias provider_id model_name description w,
         exists s,
           fst (create_mapping gateway url key order
                  api_key alias provider_id model_name description w)
           = Return s)
  /\ (forall api_key alias new_alias provider_id model_name description enabled w,
         exists s,
           fst (update_mapping gateway url key api_key alias new_alias
                  provider_id model_name description enabled w)
           = Return s).
Proof.
  split; [intros; apply list_models_never_raises |].
  split; [intros; apply create_mapping_never_raises |].
  intros; apply update_mapping_never_raises.
Qed.

(** ** The requests of a listing *)

Ltac split_value :=
  repeat match goal with
    | |- context [match ?v with Py.VDict _ => _ | _ => _ end] =>
        destruct v; simpl
    | |- context [match Py.len ?v with Some _ => _ | None => _ end] =>
        destruct (Py.len v); simpl
    end.

(** X3: the [list_models] handler issues the request for the built-in
    models, which carries the default key of the process when there is
    one and never the key of the caller, and then at most the request for
    the custom mappings, which carries the key of the caller; it issues
    nothing else. *)
Theorem list_models_request_sequence gateway url key api_key w :
  (requests (snd (list_models gateway url key api_key w))
   = (requests w ++ [models_request (client url key)])%list
   \/ requests (snd (list_models gateway url key api_key w))
      = (requests w ++ [models_request (client url key);
                        mappings_request (client url key) api_key])%list)
  /\ req_headers (models_request (client url key))
     = (if Py.str_truthy key then [("X-API-Key", key)] else [])
  /\ req_headers (mappings_request (client url key) api_key)
     = [("X-API-Key", api_key)].
Proof.
  split; [| split; reflexivity].
  unfold list_models, AIGatewayClient.list_models,
    AIGatewayClient.get_custom_mappings, models_request, mappings_request.
  unfold_monad. simpl.
  split_answer; try (left; reflexivity).
  match goal with
  | |- context [match ?v with Py.VDict _ => _ | _ => _ end] =>
      destruct v; simpl
  end; try (left; reflexivity).
  right. split_answer; split_value; rewrite <- app_assoc; reflexivity.
Qed.

(** X4: when the request for the built-in models is not answered with a
    success status and a JSON object, the [list_models] handler stops
    there: it issues no second request, so the key of the caller is not
    sent, and it returns a string that starts with "Error:". *)
Theorem list_models_stops_after_failed_listing gateway url key api_key w :
  (forall d,
      ~ answers_json gateway (requests w) (models_request (client url key))
          (Py.VDict d)) ->
  requests (snd (list_models gateway url key api_key w))
  = (requests w ++ [models_request (client url key)])%list
  /\ exists s,
      fst (list_models gateway url key api_key w) = Return s
      /\ String.prefix "Error:" s = true.
Proof.
  intros Hnone.
  destruct (gateway (requests w) (models_request (client url key)))
    as [resp | message] eqn:Hanswer;
    [destruct (httpx.is_success resp) eqn:Hstatus;
     [destruct (resp_body resp) as [v | decode_error] eqn:Hbody;
      [destruct v |] |] |];
    try (exfalso; eapply Hnone; exists resp; repeat split; eassumption);
    unfold models_request in Hanswer; simpl in Hanswer;
    unfold list_models, AIGatewayClient.list_models, models_request;
    unfold_monad; simpl; rewrite Hanswer; simpl;
    try (rewrite Hstatus; simpl); try (rewrite Hbody; simpl);
    (split; [reflexivity | eexists; split; reflexivity]).
Qed.

Lemma list_models_stops_after_failed_listing_witness :
  (forall d,
      ~ answers_json failing_500 (requests initial_world)
          (models_request (client "http://localhost:8088" "")) (Py.VDict d))
  /\ requests (snd (list_models failing_500 "http://localhost:8088" "" "ak_1"
                      initial_world))
     = (requests initial_world
          ++ [models_request (client "http://localhost:8088" "")])%list
  /\ exists s,
      fst (list_models failing_500 "http://localhost:8088" "" "ak_1"
             initial_world) = Return s
      /\ String.prefix "Error:" s = true.
Proof.
  assert (Hnone :
            forall d,
              ~ answers_json failing_500 (requests initial_world)
                  (models_request (client "http://localhost:8088" ""))
                  (Py.VDict d)).
  { intros d (resp & Hanswer & Hstatus & _).
    injection Hanswer as <-. discriminate Hstatus. }
  split; [exact Hnone |].
  exact (list_models_stops_after_failed_listing failing_500
           "http://localhost:8088" "" "ak_1" initial_world Hnone).
Defined.

(** ** An unreachable gateway *)

(** X5: when no request gets an answer, each handler returns "Error: "
    followed by its own label and the message of the failure, after one
    request; the failure is logged twice, by the method of the client and
    by the handler.  For [create_mapping] this is the case of a valid
    provider. *)
Theorem handlers_report_unreachable_gateway gateway url key order message :
  (forall past r, gateway past r = Failed message) ->
  (forall api_key w,
      list_models gateway url key api_key w
      = (Return ("Error: Failed to list models: " ++ message),
         {| requests := (requests w ++ [models_request (client url key)])%list;
            log := (log w
                      ++ [(INFO, ("Listing models for user with API key: "
                                    ++ Py.str_prefix 12 api_key ++ "...")%string);
                          (ERROR, ("Failed to list models: " ++ message)%string);
                          (ERROR, ("Failed to list models: " ++ message)%string)])%list |}))
  /\ (forall api_key alias provider_id model_name description w,
         In provider_id valid_providers ->
         create_mapping gateway url key order
           api_key alias provider_id model_name description w
         = (Return ("Error: Failed to create mapping: " ++ message),
            {| requests :=
                 (requests w
                    ++ [post_request (client url key) api_key
                          (AIGatewayClient.create_payload alias provider_id
                             model_name description)])%list;
               log := (log w
                         ++ [(INFO, ("Creating mapping: alias=" ++ alias
                                       ++ ", provider=" ++ provider_id)%string);
                             (ERROR, ("Failed to create mapping: " ++ message)%string);
                             (ERROR, ("Failed to create mapping: " ++ message)%string)])%list |}))
  /\ (forall api_key alias new_alias provider_id model_name description enabled w,
         update_mapping gateway url key api_key alias new_alias
           provider_id model_name description enabled w
         = (Return ("Error: Failed to update mapping: " ++ message),
            {| requests :=
                 (requests w
                    ++ [put_request (client url key) api_key alias
                          (AIGatewayClient.update_payload
                             (none_if_empty provider_id)
                             (none_if_empty model_name)
                             (none_if_empty description) enabled)])%list;
               log := (log w
                         ++ [(INFO, ("Updating mapping: alias=" ++ alias)%string);
                             (ERROR, ("Failed to update mapping: " ++ message)%string);
                             (ERROR, ("Failed to update mapping: " ++ message)%string)])%list |})).
Proof.
  intros Hdown. repeat split.
  - intros. unfold list_models, AIGatewayClient.list_models. unfold_monad.
    simpl. rewrite Hdown. simpl. rewrite <- !app_assoc. reflexivity.
  - intros api_key alias provider_id model_name description w Hvalid.
    assert (Hprovider : provider_in provider_id valid_providers = true).
    { destruct Hvalid as [<- | [<- | [<- | []]]]; reflexivity. }
    unfold create_mapping, AIGatewayClient.create_mapping. unfold_monad.
    simpl. rewrite Hprovider. simpl. rewrite Hdown. simpl.
    rewrite <- !app_assoc. reflexivity.
  - intros. unfold update_mapping, AIGatewayClient.update_mapping.
    unfold_monad. simpl. rewrite Hdown. simpl.
    rewrite <- !app_assoc. reflexivity.
Qed.

Lemma handlers_report_unreachable_gateway_witness :
  (forall past r, unreachable past r = Failed "All connection attempts failed")
  /\ fst (list_models unreachable "http://localhost:8088" "" "ak_1"
            initial_world)
     = Return "Error: Failed to list models: All connection attempts failed".
Proof.
  assert (Hdown :
            forall past r,
              unreachable past r = Failed "All connection attempts failed")
    by (intros past r; reflexivity).
  split; [exact Hdown |].
  destruct (handlers_report_unreachable_gateway unreachable
              "http://localhost:8088" "" ["glm"; "openai"; "antigravity"]
              "All connection attempts failed" Hdown)
    as (Hlist & _ & _).
  rewrite (Hlist "ak_1" initial_world). reflexivity.
Defined.

(** ** What the methods of the client raise *)

Ltac run_method Hanswer :=
  unfold AIGatewayClient.list_models, AIGatewayClient.get_custom_mappings,
    AIGatewayClient.create_mapping, AIGatewayClient.update_mapping;
  unfold models_request, mappings_request, post_request, put_request in *;
  unfold_monad; rewrite Hanswer; simpl.

(** X6: a response with a status outside 200..299 makes each method of
    the client raise [HTTPStatusError] with the message of the status,
    after it has written one ERROR record with its own label; the body of
    the response is not read. *)
Theorem client_reraises_status_errors gateway self w resp :
  status_code resp < 200 \/ 299 < status_code resp ->
  (gateway (requests w) (models_request self) = Responded resp ->
   AIGatewayClient.list_models gateway self w
   = (Raise {| exc_type := HTTPStatusError; exc_message := status_text resp |},
      {| requests := (requests w ++ [models_request self])%list;
         log := (log w ++ [(ERROR, ("Failed to list models: "
                                      ++ status_text resp)%string)])%list |}))
  /\ (forall user_id api_key,
         gateway (requests w) (mappings_request self api_key) = Responded resp ->
         AIGatewayClient.get_custom_mappings gateway self user_id api_key w
         = (Raise {| exc_type := HTTPStatusError;
                     exc_message := status_text resp |},
            {| requests := (requests w ++ [mappings_request self api_key])%list;
               log := (log w ++ [(ERROR, ("Failed to get custom mappings: "
                                            ++ status_text resp)%string)])%list |}))
  /\ (forall api_key alias provider_id model_name description,
         gateway (requests w)
           (post_request self api_key
              (AIGatewayClient.create_payload alias provider_id model_name
                 description)) = Responded resp ->
         AIGatewayClient.create_mapping gateway self api_key alias provider_id
           model_name description w
         = (Raise {| exc_type := HTTPStatusError;
                     exc_message := status_text resp |},
            {| requests :=
                 (requests w
                    ++ [post_request self api_key
                          (AIGatewayClient.create_payload alias provider_id
                             model_name description)])%list;
               log := (log w ++ [(ERROR, ("Failed to create mapping: "
                                            ++ status_text resp)%string)])%list |}))
  /\ (forall api_key alias provider_id model_name description enabled,
         gateway (requests w)
           (put_request self api_key alias
              (AIGatewayClient.update_payload provider_id model_name
                 description enabled)) = Responded resp ->
         AIGatewayClient.update_mapping gateway self api_key alias provider_id
           model_name description enabled w
         = (Raise {| exc_type := HTTPStatusError;
                     exc_message := status_text resp |},
            {| requests :=
                 (requests w
                    ++ [put_request self api_key alias
                          (AIGatewayClient.update_payload provider_id model_name
                             description enabled)])%list;
               log := (log w ++ [(ERROR, ("Failed to update mapping: "
                                            ++ status_text resp)%string)])%list |})).
Proof.
  intros Hstatus. apply not_success in Hstatus.
  repeat split; intros; match goal with
                        | Hanswer : gateway _ _ = Responded resp |- _ =>
                            run_method Hanswer
                        end; rewrite Hstatus; reflexivity.
Qed.

Lemma client_reraises_status_errors_witness :
  (status_code not_found_response < 200 \/ 299 < status_code not_found_response)
  /\ fst (AIGatewayClient.update_mapping not_found sample_client
            "ak_1" "missing" None (Some "gpt-4o") None None initial_world)
     = Raise {| exc_type := HTTPStatusError;
                exc_message := "Client error '404 Not Found'" |}.
Proof.
  assert (Hstatus :
            status_code not_found_response < 200
            \/ 299 < status_code not_found_response)
    by (right; reflexivity).
  split; [exact Hstatus |].
  destruct (client_reraises_status_errors not_found sample_client
              initial_world not_found_response Hstatus)
    as (_ & _ & _ & Hupdate).
  rewrite (Hupdate "ak_1" "missing" None (Some "gpt-4o") None None eq_refl).
  reflexivity.
Defined.

(** X7: a response with a success status whose body is not JSON makes
    each method of the client raise [JSONDecodeError]; as the methods
    handle [httpx.HTTPError] only, nothing is logged by the client. *)
Theorem client_decode_errors_unlogged gateway self w resp decode_error :
  httpx.is_success resp = true ->
  resp_body resp = NotJson decode_error ->
  (gateway (requests w) (models_request self) = Responded resp ->
   AIGatewayClient.list_models gateway self w
   = (Raise {| exc_type := JSONDecodeError; exc_message := decode_error |},
      {| requests := (requests w ++ [models_request self])%list;
         log := log w |}))
  /\ (forall user_id api_key,
         gateway (requests w) (mappings_request self api_key) = Responded resp ->
         AIGatewayClient.get_custom_mappings gateway self user_id api_key w
         = (Raise {| exc_type := JSONDecodeError;
                     exc_message := decode_error |},
            {| requests := (requests w ++ [mappings_request self api_key])%list;
               log := log w |}))
  /\ (forall api_key alias provider_id model_name description,
         gateway (requests w)
           (post_request self api_key
              (AIGatewayClient.create_payload alias provider_id model_name
                 description)) = Responded resp ->
         AIGatewayClient.create_mapping gateway self api_key alias provider_id
           model_name description w
         = (Raise {| exc_type := JSONDecodeError;
                     exc_message := decode_error |},
            {| requests :=
                 (requests w
                    ++ [post_request self api_key
                          (AIGatewayClient.create_payload alias provider_id
                             model_name description)])%list;
               log := log w |}))
  /\ (forall api_key alias provider_id model_name description enabled,
         gateway (requests w)
           (put_request self api_key alias
              (AIGatewayClient.update_payload provider_id model_name
                 description enabled)) = Responded resp ->
         AIGatewayClient.update_mapping gateway self api_key alias provider_id
           model_name description enabled w
         = (Raise {| exc_type := JSONDecodeError;
                     exc_message := decode_error |},
            {| requests :=
                 (requests w
                    ++ [put_request self api_key alias
                          (AIGatewayClient.update_payload provider_id model_name
                             description enabled)])%list;
               log := log w |})).
Proof.
  intros Hstatus Hbody.
  repeat split; intros; match goal with
                        | Hanswer : gateway _ _ = Responded resp |- _ =>
                            run_method Hanswer
                        end; rewrite Hstatus; simpl; rewrite Hbody; reflexivity.
Qed.

Lemma client_decode_errors_unlogged_witness :
  httpx.is_success garbled_response = true
  /\ resp_body garbled_response
     = NotJson "Expecting value: line 1 column 1 (char 0)"
  /\ AIGatewayClient.create_mapping garbled sample_client
       "ak_1" "my-gpt" "openai" "gpt-4" "" initial_world
     = (Raise {| exc_type := JSONDecodeError;
                 exc_message := "Expecting value: line 1 column 1 (char 0)" |},
        {| requests := [post_request sample_client "ak_1"
                          [("alias", Py.VStr "my-gpt");
                           ("provider_id", Py.VStr "openai");
                           ("model_name", Py.VStr "gpt-4")]];
           log := [] |}).
Proof.
  split; [reflexivity |]. split; [reflexivity |].
  destruct (client_decode_errors_unlogged garbled sample_client initial_world
              garbled_response "Expecting value: line 1 column 1 (char 0)"
              eq_refl eq_refl)
    as (_ & _ & Hcreate & _).
  rewrite (Hcreate "ak_1" "my-gpt" "openai" "gpt-4" "" eq_refl).
  reflexivity.
Defined.

(** ** What the handlers return on success *)

Lemma provider_in_true provider_id :
  In provider_id valid_providers ->
  provider_in provider_id valid_providers = true.
Proof.
  intros [<- | [<- | [<- | []]]]; reflexivity.
Qed.

(** X8: for a valid provider, when the gateway answers the POST with a
    success status and a JSON body, the [create_mapping] handler returns
    that body through [str], unchanged and unchecked, after one request
    and two INFO records. *)
Theorem create_mapping_returns_response
        gateway url key order api_key alias provider_id model_name description
        w v :
  In provider_id valid_providers ->
  answers_json gateway (requests w)
    (post_request (client url key) api_key
       (AIGatewayClient.create_payload alias provider_id model_name
          description)) v ->
  create_mapping gateway url key order
    api_key alias provider_id model_name description w
  = (Return (Py.str v),
     {| requests :=
          (requests w
             ++ [post_request (client url key) api_key
                   (AIGatewayClient.create_payload alias provider_id
                      model_name description)])%list;
        log := (log w
                  ++ [(INFO, ("Creating mapping: alias=" ++ alias
                                ++ ", provider=" ++ provider_id)%string);
                      (INFO, ("Mapping created successfully: "
                                ++ alias)%string)])%list |}).
Proof.
  intros Hvalid (resp & Hanswer & Hstatus & Hbody).
  apply provider_in_true in Hvalid.
  unfold create_mapping, AIGatewayClient.create_mapping.
  unfold post_request in *. unfold_monad. simpl.
  rewrite Hvalid. simpl. simpl in Hanswer. rewrite Hanswer. simpl.
  rewrite Hstatus. simpl. rewrite Hbody. simpl.
  rewrite <- !app_assoc. reflexivity.
Qed.

(** X9: when the gateway answers the PUT with a success status and a
    JSON body, the [update_mapping] handler returns that body through
    [str], after one request and two INFO records. *)
Theorem update_mapping_returns_response
        gateway url key api_key alias new_alias provider_id model_name
        description enabled w v :
  answers_json gateway (requests w)
    (put_request (client url key) api_key alias
       (AIGatewayClient.update_payload (none_if_empty provider_id)
          (none_if_empty model_name) (none_if_empty description) enabled)) v ->
  update_mapping gateway url key api_key alias new_alias
    provider_id model_name description enabled w
  = (Return (Py.str v),
     {| requests :=
          (requests w
             ++ [put_request (client url key) api_key alias
                   (AIGatewayClient.update_payload (none_if_empty provider_id)
                      (none_if_empty model_name) (none_if_empty description)
                      enabled)])%list;
        log := (log w
                  ++ [(INFO, ("Updating mapping: alias=" ++ alias)%string);
                      (INFO, ("Mapping updated successfully: "
                                ++ alias)%string)])%list |}).
Proof.
  intros (resp & Hanswer & Hstatus & Hbody).
  unfold update_mapping, AIGatewayClient.update_mapping.
  unfold put_request in *. unfold_monad. simpl.
  simpl in Hanswer. rewrite Hanswer. simpl.
  rewrite Hstatus. simpl. rewrite Hbody. simpl.
  rewrite <- !app_assoc. reflexivity.
Qed.

Lemma create_mapping_returns_response_witness :
  In "openai" valid_providers
  /\ answers_json sample_gateway (requests initial_world)
       (post_request (client "http://localhost:8088" "") "ak_1"
          (AIGatewayClient.create_payload "my-gpt" "openai" "gpt-4" "fast"))
       (Py.VDict [("status", Py.VStr "ok")])
  /\ fst (create_mapping sample_gateway "http://localhost:8088" ""
            ["glm"; "openai"; "antigravity"]
            "ak_1" "my-gpt" "openai" "gpt-4" "fast" initial_world)
     = Return "{'status': 'ok'}".
Proof.
  assert (Hvalid : In "openai" valid_providers) by (right; left; reflexivity).
  assert (Hanswer :
            answers_json sample_gateway (requests initial_world)
              (post_request (client "http://localhost:8088" "") "ak_1"
                 (AIGatewayClient.create_payload "my-gpt" "openai" "gpt-4"
                    "fast"))
              (Py.VDict [("status", Py.VStr "ok")])).
  { eexists. repeat split. }
  split; [exact Hvalid |]. split; [exact Hanswer |].
  rewrite (create_mapping_returns_response sample_gateway
             "http://localhost:8088" "" ["glm"; "openai"; "antigravity"]
             "ak_1" "my-gpt" "openai" "gpt-4" "fast" initial_world
             (Py.VDict [("status", Py.VStr "ok")]) Hvalid Hanswer).
  reflexivity.
Defined.

Lemma update_mapping_returns_response_witness :
  answers_json sample_gateway (requests initial_world)
    (put_request (client "http://localhost:8088" "") "ak_1" "my-gpt"
       (AIGatewayClient.update_payload (none_if_empty "")
          (none_if_empty "gpt-4o") (none_if_empty "") (Some true)))
    (Py.VDict [("status", Py.VStr "ok")])
  /\ fst (update_mapping sample_gateway "http://localhost:8088" ""
            "ak_1" "my-gpt" "" "" "gpt-4o" "" (Some true) initial_world)
     = Return "{'status': 'ok'}".
Proof.
  assert (Hanswer :
            answers_json sample_gateway (requests initial_world)
              (put_request (client "http://localhost:8088" "") "ak_1" "my-gpt"
                 (AIGatewayClient.update_payload (none_if_empty "")
                    (none_if_empty "gpt-4o") (none_if_empty "") (Some true)))
              (Py.VDict [("status", Py.VStr "ok")])).
  { eexists. repeat split. }
  split; [exact Hanswer |].
  rewrite (update_mapping_returns_response sample_gateway
             "http://localhost:8088" "" "ak_1" "my-gpt" "" "" "gpt-4o" ""
             (Some true) initial_world
             (Py.VDict [("status", Py.VStr "ok")]) Hanswer).
  reflexivity.
Defined.

(** ** Listings that cannot be counted *)

(** X10: when both requests of the listing succeed with JSON objects but
    the value under "models" or the value under "data" has no length (a
    number, a boolean, or [null] stored under the key, which the default
    of [.get] does not replace), the [list_models] handler returns the
    message of the [TypeError] of [len] for the first such value, after
    both requests. *)
Theorem list_models_reports_values_without_length
        gateway url key api_key w models_response mappings_response :
  answers_json gateway (requests w) (models_request (client url key))
    (Py.VDict models_response) ->
  answers_json gateway (requests w ++ [models_request (client url key)])%list
    (mappings_request (client url key) api_key) (Py.VDict mappings_response) ->
  Py.len (Py.dict_get "models" (Py.VList []) models_response) = None
  \/ Py.len (Py.dict_get "data" (Py.VList []) mappings_response) = None ->
  fst (list_models gateway url key api_key w)
  = Return ("Error: Failed to list models: object of type '"
              ++ Py.type_name
                   (match Py.len (Py.dict_get "models" (Py.VList [])
                                    models_response) with
                    | None => Py.dict_get "models" (Py.VList []) models_response
                    | Some _ => Py.dict_get "data" (Py.VList []) mappings_response
                    end)
              ++ "' has no len()")
  /\ requests (snd (list_models gateway url key api_key w))
     = (requests w ++ [models_request (client url key);
                       mappings_request (client url key) api_key])%list.
Proof.
  intros Hmodels Hmappings Hunsized.
  unfold list_models, try_except, bind, logger_info.
  cbn beta iota.
  rewrite list_models_ok with (v := Py.VDict models_response) by exact Hmodels.
  cbn beta iota delta [value_get ret].
  rewrite get_custom_mappings_ok with (d := mappings_response)
    by exact Hmappings.
  unfold value_len, Exception.
  destruct (Py.len (Py.dict_get "models" (Py.VList []) models_response))
    as [n |] eqn:Hn.
  - destruct Hunsized as [Hcontra | Hm]; [discriminate Hcontra |].
    cbn beta iota delta [ret]. rewrite Hm. simpl.
    rewrite <- app_assoc. split; reflexivity.
  - simpl. rewrite <- app_assoc. split; reflexivity.
Qed.

Lemma list_models_reports_values_without_length_witness :
  answers_json sample_gateway_null_data (requests initial_world)
    (models_request (client "http://localhost:8088" ""))
    (Py.VDict [("models", Py.VList [])])
  /\ answers_json sample_gateway_null_data
       (requests initial_world
          ++ [models_request (client "http://localhost:8088" "")])%list
       (mappings_request (client "http://localhost:8088" "") "ak_1")
       (Py.VDict [("data", Py.VNone)])
  /\ (Py.len (Py.dict_get "models" (Py.VList []) [("models", Py.VList [])])
      = None
      \/ Py.len (Py.dict_get "data" (Py.VList []) [("data", Py.VNone)]) = None)
  /\ fst (list_models sample_gateway_null_data "http://localhost:8088" ""
            "ak_1" initial_world)
     = Return "Error: Failed to list models: object of type 'NoneType' has no len()".
Proof.
  assert (Hmodels :
            answers_json sample_gateway_null_data (requests initial_world)
              (models_request (client "http://localhost:8088" ""))
              (Py.VDict [("models", Py.VList [])])).
  { eexists. repeat split. }
  assert (Hmappings :
            answers_json sample_gateway_null_data
              (requests initial_world
                 ++ [models_request (client "http://localhost:8088" "")])%list
              (mappings_request (client "http://localhost:8088" "") "ak_1")
              (Py.VDict [("data", Py.VNone)])).
  { eexists. repeat split. }
  assert (Hunsized :
            Py.len (Py.dict_get "models" (Py.VList []) [("models", Py.VList [])])
            = None
            \/ Py.len (Py.dict_get "data" (Py.VList []) [("data", Py.VNone)])
               = None)
    by (right; reflexivity).
  split; [exact Hmodels |]. split; [exact Hmappings |].
  split; [exact Hunsized |].
  exact (proj1 (list_models_reports_values_without_length
                  sample_gateway_null_data "http://localhost:8088" "" "ak_1"
                  initial_world _ _ Hmodels Hmappings Hunsized)).
Defined.

(** X11: the listing gives no partial result.  When the built-in models
    are listed but the request for the custom mappings is answered with a
    status outside 200..299 (a key that the gateway refuses, say), the
    [list_models] handler returns the error of the second request alone,
    after both requests; the failure is logged by the method of the client
    and by the handler. *)
Theorem list_models_gives_no_partial_result
        gateway url key api_key w models_response resp :
  answers_json gateway (requests w) (models_request (client url key))
    (Py.VDict models_response) ->
  gateway (requests w ++ [models_request (client url key)])%list
    (mappings_request (client url key) api_key) = Responded resp ->
  status_code resp < 200 \/ 299 < status_code resp ->
  list_models gateway url key api_key w
  = (Return ("Error: Failed to list models: " ++ status_text resp),
     {| requests := (requests w ++ [models_request (client url key);
                                    mappings_request (client url key) api_key])%list;
        log := (log w
                  ++ [(INFO, ("Listing models for user with API key: "
                                ++ Py.str_prefix 12 api_key ++ "...")%string);
                      (ERROR, ("Failed to get custom mappings: "
                                 ++ status_text resp)%string);
                      (ERROR, ("Failed to list models: "
                                 ++ status_text resp)%string)])%list |}).
Proof.
  intros Hmodels Hanswer Hstatus.
  unfold list_models, try_except, bind, logger_info.
  cbn beta iota.
  rewrite list_models_ok with (v := Py.VDict models_response) by exact Hmodels.
  cbn beta iota delta [value_get ret].
  unfold AIGatewayClient.get_custom_mappings. unfold mappings_request in *.
  unfold_monad. cbn [requests].
  rewrite Hanswer. simpl. rewrite (not_success resp Hstatus). simpl.
  rewrite <- !app_assoc. reflexivity.
Qed.

Lemma list_models_gives_no_partial_result_witness :
  answers_json sample_gateway_unauthorized (requests initial_world)
    (models_request (client "http://localhost:8088" ""))
    (Py.VDict [("models", Py.VList [])])
  /\ sample_gateway_unauthorized
       (requests initial_world
          ++ [models_request (client "http://localhost:8088" "")])%list
       (mappings_request (client "http://localhost:8088" "") "ak_bad")
     = Responded unauthorized_response
  /\ (status_code unauthorized_response < 200
      \/ 299 < status_code unauthorized_response)
  /\ fst (list_models sample_gateway_unauthorized "http://localhost:8088" ""
            "ak_bad" initial_world)
     = Return "Error: Failed to list models: Client error '401 Unauthorized'".
Proof.
  assert (Hmodels :
            answers_json sample_gateway_unauthorized (requests initial_world)
              (models_request (client "http://localhost:8088" ""))
              (Py.VDict [("models", Py.VList [])])).
  { eexists. repeat split. }
  assert (Hstatus :
            status_code unauthorized_response < 200
            \/ 299 < status_code unauthorized_response)
    by (right; reflexivity).
  split; [exact Hmodels |]. split; [reflexivity |]. split; [exact Hstatus |].
  rewrite (list_models_gives_no_partial_result sample_gateway_unauthorized
             "http://localhost:8088" "" "ak_bad" initial_world
             [("models", Py.VList [])] unauthorized_response
             Hmodels eq_refl Hstatus).
  reflexivity.
Defined.

(** ** Edge inputs of the handlers *)

(** X12: an update that sets nothing (the three strings empty, [enabled]
    unset) is not rejected locally: the [update_mapping] handler still
    issues the PUT, with an empty body. *)
Theorem update_mapping_nothing_to_update
        gateway url key api_key alias new_alias w :
  requests (snd (update_mapping gateway url key api_key alias new_alias
                   "" "" "" None w))
  = (requests w ++ [put_request (client url key) api_key alias []])%list.
Proof.
  rewrite update_mapping_tool_requests. reflexivity.
Qed.

(** ** What the listing logs of the key *)

Lemma str_prefix_length n s : (String.length (Py.str_prefix n s) <= n)%nat.
Proof.
  unfold Py.str_prefix. revert s.
  induction n as [| n IH]; intros [| c s]; simpl.
  - apply le_n.
  - apply le_n.
  - apply Nat.le_0_l.
  - apply le_n_S. apply IH.
Qed.

Lemma str_prefix_is_prefix n s : String.prefix (Py.str_prefix n s) s = true.
Proof.
  unfold Py.str_prefix. revert s.
  induction n as [| n IH]; intros [| c s]; simpl; try reflexivity.
  destruct (ascii_dec c c) as [_ | Hneq]; [apply IH | contradiction].
Qed.

(** X13: the first record that the [list_models] handler writes is an
    INFO record that shows a prefix of the key of the caller of at most
    12 characters, whatever happens next. *)
Theorem list_models_logs_key_prefix gateway url key api_key w :
  exists shown rest,
    log (snd (list_models gateway url key api_key w))
    = (log w
         ++ (INFO, ("Listing models for user with API key: "
                      ++ shown ++ "...")%string) :: rest)%list
    /\ String.prefix shown api_key = true
    /\ (String.length shown <= 12)%nat.
Proof.
  exists (Py.str_prefix 12 api_key).
  assert (Hlog :
            exists rest,
              log (snd (list_models gateway url key api_key w))
              = (log w
                   ++ (INFO, ("Listing models for user with API key: "
                                ++ Py.str_prefix 12 api_key ++ "...")%string)
                   :: rest)%list).
  { unfold list_models, AIGatewayClient.list_models,
      AIGatewayClient.get_custom_mappings.
    unfold_monad. cbn [requests log fst snd].
    split_answer; split_value; split_answer; split_value;
      eexists; rewrite <- ?app_assoc; reflexivity. }
  destruct Hlog as [rest Hlog]. exists rest.
  split; [exact Hlog |].
  split; [apply str_prefix_is_prefix | apply str_prefix_length].
Qed.

(** ** Creation: what is checked and what is not *)

(** X14: for a valid provider the [create_mapping] handler issues exactly
    one POST with the key of the caller, whatever the gateway answers;
    alias, model name and description are sent as they are, an empty alias
    or model name included: the provider is the only input checked. *)
Theorem create_mapping_valid_provider_posts_once
        gateway url key order api_key alias provider_id model_name description
        w :
  In provider_id valid_providers ->
  requests (snd (create_mapping gateway url key order
                   api_key alias provider_id model_name description w))
  = (requests w
       ++ [{| req_method := POST;
              req_target := Url (url ++ "/api/v1/model-mappings");
              req_headers := [("X-API-Key", api_key)];
              req_json :=
                Some (AIGatewayClient.create_payload alias provider_id
                        model_name description) |}])%list
  /\ Py.dict_lookup "alias"
       (AIGatewayClient.create_payload alias provider_id model_name description)
     = Some (Py.VStr alias)
  /\ Py.dict_lookup "model_name"
       (AIGatewayClient.create_payload alias provider_id model_name description)
     = Some (Py.VStr model_name).
Proof.
  intros Hvalid. apply provider_in_true in Hvalid.
  split.
  - rewrite create_mapping_tool_requests by exact Hvalid. reflexivity.
  - split; apply create_payload_lookup.
Qed.

Lemma create_mapping_valid_provider_posts_once_witness :
  In "glm" valid_providers
  /\ requests (snd (create_mapping unreachable "http://localhost:8088" ""
                      ["glm"; "openai"; "antigravity"]
                      "ak_1" "" "glm" "" "" initial_world))
     = [{| req_method := POST;
           req_target := Url "http://localhost:8088/api/v1/model-mappings";
           req_headers := [("X-API-Key", "ak_1")];
           req_json := Some [("alias", Py.VStr "");
                             ("provider_id", Py.VStr "glm");
                             ("model_name", Py.VStr "")] |}].
Proof.
  assert (Hvalid : In "glm" valid_providers)
    by (right; right; left; reflexivity).
  split; [exact Hvalid |].
  exact (proj1 (create_mapping_valid_provider_posts_once unreachable
                  "http://localhost:8088" "" ["glm"; "openai"; "antigravity"]
                  "ak_1" "" "glm" "" "" initial_world Hvalid)).
Defined.

(** X15: a request that the gateway accepts with a success status but
    answers with a body that is not JSON is reported as a failure: the
    [create_mapping] handler (for a valid provider) and the
    [update_mapping] handler return "Error: " with their label and the
    message of the decoder, and log one ERROR record. *)
Theorem accepted_requests_reported_as_errors
        gateway url key order resp decode_error :
  (forall past r, gateway past r = Responded resp) ->
  httpx.is_success resp = true ->
  resp_body resp = NotJson decode_error ->
  (forall api_key alias provider_id model_name description w,
      In provider_id valid_providers ->
      create_mapping gateway url key order
        api_key alias provider_id model_name description w
      = (Return ("Error: Failed to create mapping: " ++ decode_error),
         {| requests :=
              (requests w
                 ++ [post_request (client url key) api_key
                       (AIGatewayClient.create_payload alias provider_id
                          model_name description)])%list;
            log := (log w
                      ++ [(INFO, ("Creating mapping: alias=" ++ alias
                                    ++ ", provider=" ++ provider_id)%string);
                          (ERROR, ("Failed to create mapping: "
                                     ++ decode_error)%string)])%list |}))
  /\ (forall api_key alias new_alias provider_id model_name description enabled w,
         update_mapping gateway url key api_key alias new_alias
           provider_id model_name description enabled w
         = (Return ("Error: Failed to update mapping: " ++ decode_error),
            {| requests :=
                 (requests w
                    ++ [put_request (client url key) api_key alias
                          (AIGatewayClient.update_payload
                             (none_if_empty provider_id)
                             (none_if_empty model_name)
                             (none_if_empty description) enabled)])%list;
               log := (log w
                         ++ [(INFO, ("Updating mapping: alias=" ++ alias)%string);
                             (ERROR, ("Failed to update mapping: "
                                        ++ decode_error)%string)])%list |})).
Proof.
  intros Hanswer Hstatus Hbody. split.
  - intros api_key alias provider_id model_name description w Hvalid.
    apply provider_in_true in Hvalid.
    unfold create_mapping, AIGatewayClient.create_mapping. unfold_monad.
    simpl. rewrite Hvalid. simpl. rewrite Hanswer. simpl.
    rewrite Hstatus. simpl. rewrite Hbody. simpl.
    rewrite <- !app_assoc. reflexivity.
  - intros. unfold update_mapping, AIGatewayClient.update_mapping.
    unfold_monad. simpl. rewrite Hanswer. simpl.
    rewrite Hstatus. simpl. rewrite Hbody. simpl.
    rewrite <- !app_assoc. reflexivity.
Qed.

Lemma accepted_requests_reported_as_errors_witness :
  (forall past r, garbled past r = Responded garbled_response)
  /\ httpx.is_success garbled_response = true
  /\ resp_body garbled_response
     = NotJson "Expecting value: line 1 column 1 (char 0)"
  /\ fst (update_mapping garbled "http://localhost:8088" ""
            "ak_1" "my-gpt" "" "" "gpt-4o" "" None initial_world)
     = Return ("Error: Failed to update mapping: "
                 ++ "Expecting value: line 1 column 1 (char 0)").
Proof.
  assert (Hanswer : forall past r, garbled past r = Responded garbled_response)
    by (intros past r; reflexivity).
  split; [exact Hanswer |]. split; [reflexivity |]. split; [reflexivity |].
  destruct (accepted_requests_reported_as_errors garbled
              "http://localhost:8088" "" ["glm"; "openai"; "antigravity"]
              garbled_response "Expecting value: line 1 column 1 (char 0)"
              Hanswer eq_refl eq_refl)
    as (_ & Hupdate).
  rewrite (Hupdate "ak_1" "my-gpt" "" "" "gpt-4o" "" None initial_world).
  reflexivity.
Defined.

(** ** What the update handler cannot express *)

(** X16: the method of the client can clear a description, by sending the
    empty string when it is passed one; the [update_mapping] handler never
    does: no input makes it send "description" with the empty string, nor
    "provider_id" or "model_name" with the empty string. *)
Theorem update_mapping_cannot_clear_description :
  (forall gateway self api_key alias provider_id model_name enabled w,
      exists payload,
        requests (snd (AIGatewayClient.update_mapping gateway self api_key
                         alias provider_id model_name (Some "") enabled w))
        = (requests w ++ [put_request self api_key alias payload])%list
        /\ Py.dict_lookup "description" payload = Some (Py.VStr ""))
  /\ (forall gateway url key api_key alias new_alias provider_id model_name
             description enabled w,
         exists payload,
           requests (snd (update_mapping gateway url key api_key alias
                            new_alias provider_id model_name description
                            enabled w))
           = (requests w
                ++ [put_request (client url key) api_key alias payload])%list
           /\ Py.dict_lookup "description" payload <> Some (Py.VStr "")
           /\ Py.dict_lookup "provider_id" payload <> Some (Py.VStr "")
           /\ Py.dict_lookup "model_name" payload <> Some (Py.VStr "")).
Proof.
  split.
  - intros. eexists. split; [apply update_mapping_requests |].
    apply update_payload_description.
  - intros. eexists. split; [apply update_mapping_tool_requests |].
    rewrite update_payload_description, update_payload_provider_id,
      update_payload_model_name.
    repeat split.
    + destruct description; simpl; intros Heq; discriminate Heq.
    + destruct provider_id; simpl; intros Heq; discriminate Heq.
    + destruct model_name; simpl; intros Heq; discriminate Heq.
Qed.
